(** * Rental-history monitor (monitor.py): change detection and safe persistence

    A shallow embedding of [src/monitor.py].  The script polls a history API
    for a fixed list of bikes, derives a key for every record it receives,
    compares the keys with the set stored in [last_records.json], posts one
    webhook message per record judged new, and stores the union of the old
    and the current keys.

    Modelling choices.
    - Values decoded by [json.loads] are the inductive [json].  A float is
      carried as the text Python prints for it: the script only truth-tests
      and prints floats.
    - Texts are byte strings in UTF-8.  [json.loads] also decodes what
      UTF-8 cannot hold, a lone surrogate (the escape for U+D800 with no
      low half after it); it is carried as the three bytes its number would
      take, which no valid text contains, and [Py.encodes] tells such texts
      from the others.
    - Python exceptions are the [Raise] results of the type [result]; code
      that prints, sleeps or talks to the network lives in the writer-and-error
      monad [M], whose trace is the list of [event]s the run performs.  The
      console, whose encoding is set outside the script, accepts every line.
    - The network is an oracle of the [world]: what each GET attempt
      returns and whether each POST is answered.
    - The state file holds a JSON array of strings written by the script
      itself; its content is the finite set of those strings, all of which
      the script could encode when it wrote them.  The file system accepts
      every write; the write of the state fails when a key does not encode,
      after the file has been emptied by [open].
    - Library routines whose tables are not part of the repository
      ([str.__repr__], the [strptime]/[strftime] pair of [datetime], the URL
      check of [urllib.request.Request]) are variables of the section. *)

From Stdlib Require Import ZArith List String Ascii Bool Lia.
From stdpp Require Import base decidable option list gmap strings pretty.

#[local] Set Warnings "-clear-no-such-hyp".
Local Open Scope string_scope.
Local Open Scope list_scope.
Local Open Scope nat_scope.

(** ** Values *)

Local Unset Elimination Schemes.
Inductive json : Type :=
| JNull
| JBool (b : bool)
| JInt (z : Z)
| JFloat (text : string)
| JStr (s : string)
| JArr (items : list json)
| JObj (fields : list (string * json)).
Local Set Elimination Schemes.

Inductive exn : Type :=
| TypeError
| AttributeError
| KeyError
| ValueError
| UnicodeEncodeError.

Inductive result (A : Type) : Type :=
| Ok (a : A)
| Raise (e : exn).
Arguments Ok {A} a.
Arguments Raise {A} e.

Definition rbind {A B : Type} (r : result A) (k : A → result B) : result B :=
  match r with
  | Ok a => k a
  | Raise e => Raise e
  end.

Declare Scope py_scope.
Delimit Scope py_scope with py.
Notation "'let?' x := r 'in' k" := (rbind r (fun x => k))
  (at level 10, x name, r at level 100, k at level 200) : py_scope.
Local Open Scope py_scope.

(** ** The Python operations the script applies to decoded values *)

Module Py.

(** Truth value of a decoded value ([bool(v)]). *)
Definition truthy (v : json) : bool :=
  match v with
  | JNull => false
  | JBool b => b
  | JInt z => negb (z =? 0)%Z
  | JFloat t => negb (String.eqb t "0.0" || String.eqb t "-0.0")
  | JStr s => negb (String.eqb s EmptyString)
  | JArr l => match l with [] => false | _ => true end
  | JObj kv => match kv with [] => false | _ => true end
  end.

(** [v == []]: only the empty list equals the empty list. *)
Definition is_empty_list (v : json) : bool :=
  match v with
  | JArr [] => true
  | _ => false
  end.

(** [v == s] for a string literal [s]. *)
Definition eq_str (v : json) (s : string) : bool :=
  match v with
  | JStr t => String.eqb t s
  | _ => false
  end.

(** Lookup in the items of a dict (keys are unique after [json.loads]). *)
Fixpoint assoc (k : string) (kv : list (string * json)) : option json :=
  match kv with
  | [] => None
  | (k', v) :: rest => if String.eqb k k' then Some v else assoc k rest
  end.

(** [r.get(k, default)]: only a dict has the method. *)
Definition get (r : json) (k : string) (default : json) : result json :=
  match r with
  | JObj kv => Ok (match assoc k kv with Some v => v | None => default end)
  | _ => Raise AttributeError
  end.

(** [needle in hay] on strings: substring test. *)
Fixpoint contains (needle hay : string) : bool :=
  String.prefix needle hay
  || match hay with
     | EmptyString => false
     | String _ rest => contains needle rest
     end.

(** [s in v] for a string literal [s]. *)
Definition str_in (s : string) (v : json) : result bool :=
  match v with
  | JStr t => Ok (contains s t)
  | JArr l => Ok (existsb (fun x => eq_str x s) l)
  | JObj kv => Ok (match assoc s kv with Some _ => true | None => false end)
  | JNull | JBool _ | JInt _ | JFloat _ => Raise TypeError
  end.

(** [v[s]] for a string literal [s]. *)
Definition index_str (v : json) (s : string) : result json :=
  match v with
  | JObj kv => match assoc s kv with Some x => Ok x | None => Raise KeyError end
  | _ => Raise TypeError
  end.

(** [for x in v]: the items a [for] loop visits, or [TypeError].  A text
    is visited here byte by byte and by Python character by character; the
    items are texts in both cases, which is all the script depends on. *)
Definition iter (v : json) : result (list json) :=
  match v with
  | JArr l => Ok l
  | JObj kv => Ok (map (fun p => JStr (fst p)) kv)
  | JStr s => Ok (map (fun c => JStr (String c EmptyString)) (list_ascii_of_string s))
  | JNull | JBool _ | JInt _ | JFloat _ => Raise TypeError
  end.

(** [s.replace('Z', '')]. *)
Fixpoint remove_Z (s : string) : string :=
  match s with
  | EmptyString => EmptyString
  | String c rest =>
      if Ascii.eqb c "Z"%char then remove_Z rest else String c (remove_Z rest)
  end.

(** [s.encode('utf-8')] raises nothing: the text holds no surrogate, that
    is no byte 237 followed by a byte of 160 or more (the code points
    U+D800 to U+DFFF, which valid UTF-8 never spells). *)
Fixpoint encodes (s : string) : bool :=
  match s with
  | EmptyString => true
  | String c rest =>
      negb (Ascii.eqb c (ascii_of_nat 237)
            && match rest with
               | String d _ => 160 <=? nat_of_ascii d
               | EmptyString => false
               end)
      && encodes rest
  end.

(** [", ".join(l)]. *)
Definition join_comma (l : list string) : string := String.concat ", " l.

Section Str.

(** [repr] of a [str]: quoting and escaping follow Unicode tables. *)
Variable repr_str : string → string.

Fixpoint repr (v : json) : string :=
  match v with
  | JNull => "None"
  | JBool b => if b then "True" else "False"
  | JInt z => pretty z
  | JFloat t => t
  | JStr s => repr_str s
  | JArr l => "[" +:+ join_comma (map repr l) +:+ "]"
  | JObj kv =>
      "{" +:+ join_comma (map (fun '(k, x) => repr_str k +:+ ": " +:+ repr x) kv) +:+ "}"
  end.

(** [str(v)], which is what an f-string field [{v}] prints. *)
Definition str (v : json) : string :=
  match v with
  | JStr s => s
  | _ => repr v
  end.

End Str.

End Py.

(** ** The world a run talks to, and what a run does to it *)

(** [last_records.json]: absent, present but not loadable, or holding a
    JSON array of strings (read back by the script as a set). *)
Inductive file_state : Type :=
| Missing
| Unreadable
| Stored (ids : gset string).

Record world : Type := World {
  (** [os.environ.get("DISCORD_WEBHOOK_URL")] *)
  WEBHOOK_URL : option string;
  (** [last_records.json] when the run starts *)
  state_file : file_state;
  (** [api bike_id attempt]: the decoded response of that GET, or [None]
      when [urlopen], [read], [decode] or [json.loads] raises *)
  api : Z → nat → option json;
  (** [webhook k content]: whether the [k]-th POST of the run is answered
      without an exception *)
  webhook : nat → string → bool;
}.

Inductive log_line : Type :=
| InfoWebhookConfigured
| ErrorWebhookNotSet
| InfoStateFound
| InfoLoaded (n : nat)
| ErrorLoadFailed
| InfoStateNotFound
| InfoStarting
| Checking
| ErrorFetching (bike_id : Z) (attempt : nat)
| WarningNotUpdating
| Found (n : nat)
| NoNewUpdates
| NotificationSent (bike_id : json)
| FailedToSend
| UnexpectedError (e : exn).

Inductive event : Type :=
| Printed (line : log_line)
| Sleep
| HttpGet (bike_id : Z)
| HttpPost (record : json) (content : string)
| WriteState (ids : gset string)
| SpoilState.

(** Writer-and-error monad: the events performed so far, and either a
    value or the exception that ended the computation. *)
Definition M (A : Type) : Type := list event * result A.

Definition ret {A : Type} (a : A) : M A := ([], Ok a).

Definition bind {A B : Type} (m : M A) (k : A → M B) : M B :=
  match m with
  | (t, Ok a) => let '(t', r) := k a in (t ++ t', r)
  | (t, Raise e) => (t, Raise e)
  end.

Definition emit (e : event) : M unit := ([e], Ok tt).
Definition print (l : log_line) : M unit := emit (Printed l).
Definition lift {A : Type} (r : result A) : M A := ([], r).

Notation "'do' x ← m ; k" := (bind m (fun x => k))
  (at level 10, x name, m at level 100, k at level 200) : py_scope.
Notation "m ;; k" := (bind m (fun _ => k))
  (at level 100, k at level 200, right associativity) : py_scope.

(** [for x in l: st = f(st, x)], without and with effects. *)
Fixpoint for_each {A S : Type} (f : S → A → result S) (st : S) (l : list A)
  : result S :=
  match l with
  | [] => Ok st
  | x :: rest => let? st' := f st x in for_each f st' rest
  end.

Fixpoint for_each_M {A S : Type} (f : S → A → M S) (st : S) (l : list A)
  : M S :=
  match l with
  | [] => ret st
  | x :: rest => do st' ← f st x; for_each_M f st' rest
  end.

(** What a trace did to the outside. *)
Definition posts (t : list event) : list (json * string) :=
  omap (fun e => match e with HttpPost r c => Some (r, c) | _ => None end) t.

Definition notified (t : list event) : list json := fst <$> posts t.

Definition writes (t : list event) : list (gset string) :=
  omap (fun e => match e with WriteState ids => Some ids | _ => None end) t.

(** What each opening of the state file for writing left in it: the
    array of a completed [json.dump], or, after [SpoilState], the start of
    an array that was never closed, which does not load. *)
Definition changes (t : list event) : list file_state :=
  omap (fun e =>
          match e with
          | WriteState ids => Some (Stored ids)
          | SpoilState => Some Unreadable
          | _ => None
          end) t.

Definition disk_after (f : file_state) (t : list event) : file_state :=
  match last (changes t) with
  | Some f' => f'
  | None => f
  end.

(** [set(json.load(f))], or the empty set the script starts from. *)
Definition load_state (f : file_state) : gset string :=
  match f with
  | Stored ids => ids
  | Missing | Unreadable => ∅
  end.

(** [json.dump(list(ids), f, ensure_ascii=False)] gets to the closing
    bracket: every text of the set passes the UTF-8 encoder of the file. *)
Definition writable (ids : gset string) : bool :=
  forallb Py.encodes (elements ids).

Definition BIKE_IDS : list Z :=
  [3592; 3593; 3595; 3596; 3597; 3598; 3600; 3602; 3603; 3604;
   3605; 3606; 3607; 3608; 3657; 3665; 3666; 3667; 3668; 3669; 3670]%Z.

(** ** The script *)

Section Monitor.

(** [repr] of a [str]. *)
Variable repr_str : string → string.

(** The body of the [try] in [format_datetime], applied to the text left
    after [replace('Z', '')]: [strptime] with ['%Y-%m-%dT%H:%M:%S.%f'],
    plus nine hours, [strftime('%Y/%m/%d %H:%M')]; [None] when it raises. *)
Variable to_jst : string → option string.

(** Whether [urllib.request.Request] accepts the URL; it raises
    [ValueError] ("unknown url type") otherwise. *)
Variable url_type_known : string → bool.

Local Abbreviation str := (Py.str repr_str).

Definition nl : string := String (ascii_of_nat 10) EmptyString.

Definition log_setup_info (w : world) : M unit :=
  match WEBHOOK_URL w with
  | Some url =>
      if String.eqb url EmptyString then print ErrorWebhookNotSet
      else print InfoWebhookConfigured
  | None => print ErrorWebhookNotSet
  end.

(** [for attempt in range(3)], with [n] attempts left. *)
Fixpoint fetch_attempts (w : world) (bike_id : Z) (n attempt : nat) : M json :=
  match n with
  | 0 => ret (JArr [])
  | S n' =>
      emit (HttpGet bike_id) ;;
      match api w bike_id attempt with
      | Some v => ret v
      | None =>
          print (ErrorFetching bike_id (attempt + 1)) ;;
          emit Sleep ;;
          fetch_attempts w bike_id n' (S attempt)
      end
  end.

Definition fetch_history (w : world) (bike_id : Z) : M json :=
  fetch_attempts w bike_id 3 0.

(** A value without [replace] raises [AttributeError] inside the [try];
    the bare [except] returns the argument as it came. *)
Definition format_datetime (iso_str : json) : json :=
  if negb (Py.truthy iso_str) || Py.eq_str iso_str "-" then JStr "-"
  else
    match iso_str with
    | JStr s =>
        match to_jst (Py.remove_Z s) with
        | Some shown => JStr shown
        | None => iso_str
        end
    | _ => iso_str
    end.

(** Lines 51-84 of [send_discord_notification]: the message text. *)
Definition format_message (record : json) : result string :=
  let? name := Py.get record "name" (JStr "不明") in
  let? scheduled_start := Py.get record "scheduled_start" JNull in
  let start := format_datetime scheduled_start in
  let? end_val := Py.get record "end_date" JNull in
  let end_ := format_datetime end_val in
  let? port0 := Py.get record "port" JNull in
  let port := if Py.truthy port0 then port0 else JStr "不明" in
  let is_return := Py.truthy end_val && negb (Py.eq_str end_val "-") in
  let status_title :=
    if is_return then "✅ **自転車が返却されました**"
    else "🚲 **レンタルが開始されました**" in
  let? trailer := Py.str_in "トレイラー" name in
  let? child := Py.str_in "子供" name in
  let? child := if child then Ok true else Py.str_in "チャイルド" name in
  let? electric := Py.str_in "電動" name in
  let features :=
    (if trailer then ["🚛 トレイラー付"] else [])
    ++ (if child then ["👶 子供椅子付"] else [])
    ++ (if electric then ["⚡ 電動アシスト"] else []) in
  let feature_text :=
    match features with
    | [] => EmptyString
    | _ => " (" +:+ Py.join_comma features +:+ ")"
    end in
  let? location := Py.get record "end_location" JNull in
  let? has_xy :=
    if Py.truthy location then
      let? has_x := Py.str_in "x" location in
      if has_x then Py.str_in "y" location else Ok false
    else Ok false in
  let? map_link :=
    if has_xy then
      let? lat := Py.index_str location "y" in
      let? lon := Py.index_str location "x" in
      Ok (nl +:+ "📍 **返却場所地図:** [Google Mapsで表示](https://www.google.com/maps/search/?api=1&query="
          +:+ str lat +:+ "," +:+ str lon +:+ ")")
    else Ok EmptyString in
  Ok (status_title +:+ nl
      +:+ "--------------------------------" +:+ nl
      +:+ "**自転車:** " +:+ str name +:+ feature_text +:+ nl
      +:+ "**ポート:** " +:+ str port +:+ nl
      +:+ "**開始:** " +:+ str start +:+ nl
      +:+ "**返却:** " +:+ str end_ +:+ map_link +:+ nl
      +:+ "--------------------------------").

(** [urllib.request.Request(WEBHOOK_URL, ...)], outside the [try]. *)
Definition build_request (w : world) : result unit :=
  match WEBHOOK_URL w with
  | Some url => if url_type_known url then Ok tt else Raise ValueError
  | None => Raise ValueError
  end.

(** [k] counts the POSTs of the run; the POST carries [content]. *)
Definition send_discord_notification (w : world) (k : nat) (record : json)
  : M unit :=
  do bike_id ← lift (Py.get record "bike_id" JNull);
  do content ← lift (format_message record);
  lift (build_request w) ;;
  emit (HttpPost record content) ;;
  if webhook w k content then print (NotificationSent bike_id)
  else print FailedToSend.

(** The locals of the [try] block of [main]. *)
Record run_state : Type := RunState {
  current_ids : gset string;
  new_records : list json;
  fetch_errors : nat;
}.

Definition start_state : run_state :=
  {| current_ids := ∅; new_records := []; fetch_errors := 0 |}.

Definition record_key (record : json) : result string :=
  let? bike_id := Py.get record "bike_id" JNull in
  let? scheduled_start := Py.get record "scheduled_start" JNull in
  let? end_date := Py.get record "end_date" JNull in
  Ok (str bike_id +:+ "_" +:+ str scheduled_start +:+ "_" +:+ str end_date).

(** One turn of [for record in history]. *)
Definition visit_record (last_ids : gset string) (st : run_state) (record : json)
  : result run_state :=
  let? key := record_key record in
  let ids := {[ key ]} ∪ current_ids st in
  if bool_decide (key ∉ last_ids) && bool_decide (last_ids ≠ ∅) then
    Ok {| current_ids := ids;
          new_records := new_records st ++ [record];
          fetch_errors := fetch_errors st |}
  else
    Ok {| current_ids := ids;
          new_records := new_records st;
          fetch_errors := fetch_errors st |}.

(** What the loop over [BIKE_IDS] does with one returned [history]. *)
Definition visit_history (last_ids : gset string) (st : run_state)
    (history : json) : result run_state :=
  if negb (Py.truthy history) && negb (Py.is_empty_list history) then
    Ok {| current_ids := current_ids st;
          new_records := new_records st;
          fetch_errors := fetch_errors st + 1 |}
  else
    let? records := Py.iter history in
    for_each (visit_record last_ids) st records.

(** One turn of [for bike_id in BIKE_IDS]. *)
Definition visit_bike (w : world) (last_ids : gset string) (st : run_state)
    (bike_id : Z) : M run_state :=
  do history ← fetch_history w bike_id;
  lift (visit_history last_ids st history).

Definition scan (w : world) (last_ids : gset string) (bikes : list Z)
  : M run_state :=
  for_each_M (visit_bike w last_ids) start_state bikes.

(** [for record in new_records: send...; time.sleep(1)]. *)
Fixpoint notify_all (w : world) (k : nat) (records : list json) : M unit :=
  match records with
  | [] => ret tt
  | record :: rest =>
      send_discord_notification w k record ;;
      emit Sleep ;;
      notify_all w (S k) rest
  end.

(** Lines 153-159: [if new_records: ... else: ...]. *)
Definition dispatch (w : world) (records : list json) : M unit :=
  match records with
  | [] => print NoNewUpdates
  | _ => print (Found (length records)) ;; notify_all w 0 records
  end.

(** Lines 149-169: what the [try] block does once its loops are over.
    [open(STATE_FILE, 'w')] empties the file, and [json.dump] with
    [ensure_ascii=False] passes the keys one by one to the UTF-8 encoder of
    the file, which raises [UnicodeEncodeError] on a lone surrogate before
    the array is closed.  The keys of [last_ids] were decoded from the
    array a run wrote, so they encode; the keys collected in this run
    decide. *)
Definition conclude (w : world) (last_ids : gset string) (st : run_state)
  : M unit :=
  if bool_decide (current_ids st = ∅) && (0 <? fetch_errors st) then
    print WarningNotUpdating
  else
    dispatch w (new_records st) ;;
    if writable (current_ids st) then
      emit (WriteState (last_ids ∪ current_ids st))
    else
      emit SpoilState ;; lift (Raise UnicodeEncodeError).

(** The body of the [try] block of [main], lines 124-169. *)
Definition check (w : world) (last_ids : gset string) (bikes : list Z) : M unit :=
  do st ← scan w last_ids bikes;
  conclude w last_ids st.

(** [try: ... except Exception as e: print(...)]. *)
Definition catch (m : M unit) : list event :=
  match m with
  | (t, Ok _) => t
  | (t, Raise e) => t ++ [Printed (UnexpectedError e)]
  end.

Definition load_log (f : file_state) : list event :=
  match f with
  | Stored ids => [Printed InfoStateFound; Printed (InfoLoaded (size ids))]
  | Unreadable => [Printed InfoStateFound; Printed ErrorLoadFailed]
  | Missing => [Printed InfoStateNotFound]
  end.

(** [main()]: the events of one run. *)
Definition main (w : world) : list event :=
  fst (log_setup_info w)
  ++ load_log (state_file w)
  ++ [Printed InfoStarting; Printed Checking]
  ++ catch (check w (load_state (state_file w)) BIKE_IDS).

(** The set a following run would load. *)
Definition persisted (w : world) : gset string :=
  load_state (disk_after (state_file w) (main w)).

(** ** Vocabulary for the statements *)

(** The value [fetch_history] hands back: the first answer among the three
    attempts, and the empty list when all three raise. *)
Definition fetch_value (w : world) (bike_id : Z) : json :=
  match api w bike_id 0 with
  | Some v => v
  | None =>
      match api w bike_id 1 with
      | Some v => v
      | None =>
          match api w bike_id 2 with
          | Some v => v
          | None => JArr []
          end
      end
  end.

(** All three attempts for a bike raise. *)
Definition fetch_fails (w : world) (bike_id : Z) : Prop :=
  ∀ attempt, attempt < 3 → api w bike_id attempt = None.

(** The test of line 130, [not history and history != []]. *)
Definition counts_as_error (history : json) : bool :=
  negb (Py.truthy history) && negb (Py.is_empty_list history).

(** The records of a returned history. *)
Definition records_of (history : json) : list json :=
  match history with
  | JArr l => l
  | _ => []
  end.

(** A JSON object, the shape of a rental record. *)
Definition is_object (v : json) : bool :=
  match v with
  | JObj _ => true
  | _ => false
  end.

(** A history as the API documents it: an array of objects. *)
Definition is_history (v : json) : bool :=
  match v with
  | JArr l => forallb is_object l
  | _ => false
  end.

(** The records fetched in a run, in the order the loops meet them. *)
Definition fetched_records (w : world) (bikes : list Z) : list json :=
  flat_map (fun bike_id => records_of (fetch_value w bike_id)) bikes.

Definition key_of (record : json) : option string :=
  match record_key record with
  | Ok k => Some k
  | Raise _ => None
  end.

Definition has_key (k : string) (record : json) : bool :=
  match record_key record with
  | Ok k' => String.eqb k' k
  | Raise _ => false
  end.

(** How many records of a list carry the identity [k]. *)
Definition count_key (k : string) (records : list json) : nat :=
  length (List.filter (has_key k) records).

Definition identities (records : list json) : gset string :=
  list_to_set (omap key_of records).

(** The record's key is computed and is not in [last_ids]. *)
Definition fresh (last_ids : gset string) (record : json) : bool :=
  match record_key record with
  | Ok k => bool_decide (k ∉ last_ids)
  | Raise _ => false
  end.

(** The records appended to [new_records] while visiting [records]. *)
Definition promoted (last_ids : gset string) (records : list json) : list json :=
  if bool_decide (last_ids ≠ ∅) then List.filter (fresh last_ids) records else [].

(** The state the [try] block reaches after its loops, if it gets there. *)
Definition scan_result (w : world) : result run_state :=
  snd (scan w (load_state (state_file w)) BIKE_IDS).

(** Line 149: the run is barred from touching the state file. *)
Definition barred (st : run_state) : bool :=
  bool_decide (current_ids st = ∅) && (0 <? fetch_errors st).

(** What [send_discord_notification] computes before it POSTs: the bike
    id it logs and the message, or the exception that leaves the function. *)
Definition prepared (w : world) (record : json) : result (json * string) :=
  let? bike_id := Py.get record "bike_id" JNull in
  let? content := format_message record in
  let? _ := build_request w in
  Ok (bike_id, content).

(** Lines 50-84 raise nothing on the record: its message is built. *)
Definition formats (record : json) : Prop :=
  ∃ content, format_message record = Ok content.

(** Sending the record raises nothing: the POST is reached. *)
Definition sendable (w : world) (record : json) : Prop :=
  ∃ p, prepared w record = Ok p.

(** The same world with another webhook behaviour. *)
Definition with_webhook (w : world) (h : nat → string → bool) : world :=
  {| WEBHOOK_URL := WEBHOOK_URL w;
     state_file := state_file w;
     api := api w;
     webhook := h |}.

(** The outcome lines of the POSTs: [true] for "Notification sent",
    [false] for "Failed to send notification". *)
Definition delivery_log (t : list event) : list bool :=
  omap (fun e =>
          match e with
          | Printed (NotificationSent _) => Some true
          | Printed FailedToSend => Some false
          | _ => None
          end) t.

(** What the webhook answers to the POSTs [ps], the first being the
    [k]-th of the run. *)
Fixpoint outcomes (w : world) (k : nat) (ps : list (json * string)) : list bool :=
  match ps with
  | [] => []
  | (_, content) :: rest => webhook w k content :: outcomes w (S k) rest
  end.

(** What lines 168-169 leave in the state file. *)
Definition saved (last_ids : gset string) (st : run_state) : file_state :=
  if writable (current_ids st) then Stored (last_ids ∪ current_ids st)
  else Unreadable.

(** A stretch of a run with no POST, no write, no delivery line and the
    state file not opened for writing. *)
Definition quiet (t : list event) : Prop :=
  posts t = [] ∧ writes t = [] ∧ delivery_log t = [] ∧ changes t = [].

(** ** Sample runs

    Worlds built from records of rentals that have not started, so that
    no timestamp is converted.  The stand-ins for the library routines are
    never applied, in the runs of these worlds, to an argument on which
    Python answers otherwise. *)

Definition sample_repr (s : string) : string := "'" +:+ s +:+ "'".
Definition sample_jst (s : string) : option string := None.
Definition sample_url_check (url : string) : bool := true.

Definition sample_url : option string :=
  Some "https://discord.com/api/webhooks/1/token".

Definition record_a : json :=
  JObj [("bike_id", JInt 3592); ("name", JStr "電動 A");
        ("scheduled_start", JStr "-"); ("end_date", JStr "-");
        ("port", JStr "駅前")].

Definition fields_b : list (string * json) :=
  [("bike_id", JInt 3593); ("name", JStr "子供 B");
   ("scheduled_start", JStr "-"); ("end_date", JStr "-");
   ("port", JNull)].

(** The entries of [fields_b] the key is made of, with other display
    entries around them. *)
Definition fields_b' : list (string * json) :=
  [("end_date", JStr "-"); ("scheduled_start", JStr "-");
   ("bike_id", JInt 3593); ("name", JStr "トレイラー C");
   ("end_location", JObj [("x", JFloat "139.7"); ("y", JFloat "35.6")])].

Definition record_b : json := JObj fields_b.
Definition record_b' : json := JObj fields_b'.

Definition key_a : string := "3592_-_-".
Definition key_b : string := "3593_-_-".

(** Records that the API can send and that the formatter cannot print. *)
Definition record_null_name : json :=
  JObj [("bike_id", JInt 3592); ("name", JNull)].
Definition record_numeric_name : json :=
  JObj [("bike_id", JInt 3592); ("name", JInt 123)].
Definition record_text_location : json :=
  JObj [("bike_id", JInt 3592); ("name", JStr "A"); ("end_location", JStr "xy")].

(** A stand-in for the conversion that answers as Python does on the
    one argument it knows: 03:00 UTC is noon in Japan. *)
Definition sample_jst_noon (s : string) : option string :=
  if String.eqb s "2024-01-01T03:00:00.000" then Some "2024/01/01 12:00"
  else None.

(** Every request of the run fails. *)
Definition world_down : world :=
  {| WEBHOOK_URL := sample_url;
     state_file := Stored {[ key_a ]};
     api := fun _ _ => None;
     webhook := fun _ _ => true |}.

(** Bike 3592 answers with [history_a], bike 3593 with [history_b], the
    others with an empty history. *)
Definition answers (history_a history_b : json) (bike_id : Z) (attempt : nat)
  : option json :=
  if (bike_id =? 3592)%Z then Some history_a
  else if (bike_id =? 3593)%Z then Some history_b
  else Some (JArr []).

(** First run: no state file yet. *)
Definition world_cold : world :=
  {| WEBHOOK_URL := sample_url;
     state_file := Missing;
     api := answers (JArr [record_a]) (JArr [record_b]);
     webhook := fun _ _ => true |}.

(** [key_a] is known, [record_b] is new; the webhook refuses every POST. *)
Definition world_new : world :=
  {| WEBHOOK_URL := sample_url;
     state_file := Stored {[ key_a ]};
     api := answers (JArr [record_a]) (JArr [record_b]);
     webhook := fun _ _ => false |}.

(** As [world_new], with two fetched records carrying [key_b]. *)
Definition world_twice : world :=
  {| WEBHOOK_URL := sample_url;
     state_file := Stored {[ key_a ]};
     api := answers (JArr [record_a]) (JArr [record_b; record_b']);
     webhook := fun _ _ => true |}.

(** [key_a] is known; the one new record has a [null] name. *)
Definition world_null_name : world :=
  {| WEBHOOK_URL := sample_url;
     state_file := Stored {[ key_a ]};
     api := answers (JArr [record_a]) (JArr [record_null_name]);
     webhook := fun _ _ => true |}.

(** The text [json.loads] decodes from the escape of U+D800 alone. *)
Definition lone_surrogate : string :=
  String (ascii_of_nat 237)
    (String (ascii_of_nat 160) (String (ascii_of_nat 128) EmptyString)).

(** A rental whose start is reported as that text. *)
Definition record_s : json :=
  JObj [("bike_id", JInt 3593); ("name", JStr "子供 B");
        ("scheduled_start", JStr lone_surrogate); ("end_date", JStr "-")].

Definition key_s : string := "3593_" +:+ lone_surrogate +:+ "_-".

(** First run, with [record_s] among the fetched records. *)
Definition world_cold_surrogate : world :=
  {| WEBHOOK_URL := sample_url;
     state_file := Missing;
     api := answers (JArr [record_a]) (JArr [record_s]);
     webhook := fun _ _ => true |}.


(** A second new rental of bike 3593. *)
Definition record_c : json :=
  JObj [("bike_id", JInt 3593); ("name", JStr "電動 C");
        ("scheduled_start", JStr "-"); ("end_date", JNull)].

Definition key_c : string := "3593_-_None".

(** [key_a] is known, [record_b] and [record_c] are new, and
    [DISCORD_WEBHOOK_URL] is not set. *)
Definition world_pair_no_webhook : world :=
  {| WEBHOOK_URL := None;
     state_file := Stored {[ key_a ]};
     api := answers (JArr [record_a]) (JArr [record_b; record_c]);
     webhook := fun _ _ => true |}.

(** The same with the webhook set, the first POST refused and the second
    answered. *)
Definition world_pair_refused : world :=
  {| WEBHOOK_URL := sample_url;
     state_file := Stored {[ key_a ]};
     api := answers (JArr [record_a]) (JArr [record_b; record_c]);
     webhook := fun k _ => 0 <? k |}.

(** The rental of the end-to-end scenario, running and then returned. *)
Definition record_running : json :=
  JObj [("bike_id", JInt 3592);
        ("scheduled_start", JStr "2024-01-01T10:00:00.000Z");
        ("end_date", JStr "-")].
Definition record_returned : json :=
  JObj [("bike_id", JInt 3592);
        ("scheduled_start", JStr "2024-01-01T10:00:00.000Z");
        ("end_date", JStr "2024-01-01T12:00:00.000Z")].

Definition state_cold : run_state :=
  {| current_ids := {[ key_a ]} ∪ {[ key_b ]};
     new_records := [];
     fetch_errors := 0 |}.

Definition state_new : run_state :=
  {| current_ids := {[ key_a ]} ∪ {[ key_b ]};
     new_records := [record_b];
     fetch_errors := 0 |}.

Definition state_twice : run_state :=
  {| current_ids := {[ key_a ]} ∪ {[ key_b ]};
     new_records := [record_b; record_b'];
     fetch_errors := 0 |}.

Definition state_cold_surrogate : run_state :=
  {| current_ids := {[ key_a ]} ∪ {[ key_s ]};
     new_records := [];
     fetch_errors := 0 |}.


Definition state_pair : run_state :=
  {| current_ids := {[ key_a ]} ∪ ({[ key_b ]} ∪ {[ key_c ]});
     new_records := [record_b; record_c];
     fetch_errors := 0 |}.

(** ** Vocabulary for further properties *)

(** The bikes asked for, one entry per GET. *)
Definition gets (t : list event) : list Z :=
  omap (fun e => match e with HttpGet b => Some b | _ => None end) t.

Definition is_sleep (e : event) : bool :=
  match e with
  | Sleep => true
  | _ => false
  end.

(** The [time.sleep(1)] calls of a trace. *)
Definition sleeps (t : list event) : nat := length (List.filter is_sleep t).

(** The "Error fetching bike ... (Attempt n/3)" lines: bike and [n]. *)
Definition fetch_error_lines (t : list event) : list (Z * nat) :=
  omap (fun e =>
          match e with
          | Printed (ErrorFetching b n) => Some (b, n)
          | _ => None
          end) t.

(** No POST comes before the sleep that follows the POST before it;
    [rested] tells whether a POST may come next. *)
Fixpoint paced (rested : bool) (t : list event) : bool :=
  match t with
  | [] => true
  | HttpPost _ _ :: rest => rested && paced false rest
  | Sleep :: rest => paced true rest
  | _ :: rest => paced rested rest
  end.

Definition is_fetch_error_line (l : log_line) : bool :=
  match l with
  | ErrorFetching _ _ => true
  | _ => false
  end.

Definition is_outcome_line (l : log_line) : bool :=
  match l with
  | NotificationSent _ | FailedToSend => true
  | _ => false
  end.

(** The pieces a run is made of: a log line, a GET, the error line and the
    sleep after a failed GET, a POST with its outcome line and its sleep,
    a write of the state file, completed or not. *)
Inductive block : list event → Prop :=
| block_line l : is_fetch_error_line l = false → block [Printed l]
| block_get b : block [HttpGet b]
| block_retry b n : block [Printed (ErrorFetching b n); Sleep]
| block_post r c l : is_outcome_line l = true → block [HttpPost r c; Printed l; Sleep]
| block_write ids : block [WriteState ids]
| block_spoil : block [SpoilState].

Inductive blocks : list event → Prop :=
| blocks_nil : blocks []
| blocks_cons b t : block b → blocks t → blocks (b ++ t).

(** The same world with another state file. *)
Definition with_state (w : world) (f : file_state) : world :=
  {| WEBHOOK_URL := WEBHOOK_URL w;
     state_file := f;
     api := api w;
     webhook := webhook w |}.

(** The world of the following run when the network answers the same:
    the state file is as this run left it. *)
Definition next_run (w : world) : world :=
  with_state w (disk_after (state_file w) (main w)).

(** As [world_new], with failed attempts before the answers: bike 3592
    answers at the second attempt, bike 3593 at the third, and the other
    bikes never. *)
Definition world_slow : world :=
  {| WEBHOOK_URL := sample_url;
     state_file := Stored {[ key_a ]};
     api := fun bike_id attempt =>
              if (bike_id =? 3592)%Z then
                if attempt <? 1 then None else Some (JArr [record_a])
              else if (bike_id =? 3593)%Z then
                if attempt <? 2 then None else Some (JArr [record_b])
              else None;
     webhook := fun _ _ => false |}.

(** Every bike answers [null]. *)
Definition world_null_payload : world :=
  {| WEBHOOK_URL := sample_url;
     state_file := Stored {[ key_a ]};
     api := fun _ _ => Some JNull;
     webhook := fun _ _ => true |}.

Definition state_null_payload : run_state :=
  {| current_ids := ∅; new_records := []; fetch_errors := 21 |}.

(** Bike 3593 answers with an error object in place of a history. *)
Definition world_error_object : world :=
  {| WEBHOOK_URL := sample_url;
     state_file := Stored {[ key_a ]};
     api := answers (JArr [record_a; record_b])
                    (JObj [("error", JStr "not found")]);
     webhook := fun _ _ => true |}.

(** Two new records, the second with a [null] name. *)
Definition world_mid_batch : world :=
  {| WEBHOOK_URL := sample_url;
     state_file := Stored {[ key_a ]};
     api := answers (JArr [record_a]) (JArr [record_b; record_null_name]);
     webhook := fun _ _ => true |}.

Definition state_mid_batch : run_state :=
  {| current_ids := {[ key_a ]} ∪ ({[ key_b ]} ∪ {[ "3592_None_None" ]});
     new_records := [record_b; record_null_name];
     fetch_errors := 0 |}.

(** As [world_new], with [DISCORD_WEBHOOK_URL] not set. *)
Definition world_no_webhook : world :=
  {| WEBHOOK_URL := None;
     state_file := Stored {[ key_a ]};
     api := answers (JArr [record_a]) (JArr [record_b]);
     webhook := fun _ _ => true |}.

(** *** The message, piece by piece *)

Definition title_returned : string := "✅ **自転車が返却されました**".
Definition title_started : string := "🚲 **レンタルが開始されました**".
Definition rule : string := "--------------------------------".

(** [record.get(k)] on the entries of an object. *)
Definition entry (fields : list (string * json)) (k : string) : json :=
  match Py.assoc k fields with
  | Some v => v
  | None => JNull
  end.

(** [record.get('name', '不明')]. *)
Definition name_entry (fields : list (string * json)) : json :=
  match Py.assoc "name" fields with
  | Some v => v
  | None => JStr "不明"
  end.

(** Line 58: [end_val and end_val != "-"]. *)
Definition is_return (end_val : json) : bool :=
  Py.truthy end_val && negb (Py.eq_str end_val "-").

(** [word in v], where it is defined. *)
Definition mentions (word : string) (v : json) : bool :=
  match Py.str_in word v with
  | Ok b => b
  | Raise _ => false
  end.

(** A text, a list or an object: the values [in] accepts on its right. *)
Definition is_container (v : json) : bool :=
  match v with
  | JStr _ | JArr _ | JObj _ => true
  | _ => false
  end.

Definition feature_tags (name : json) : list string :=
  (if mentions "トレイラー" name then ["🚛 トレイラー付"] else [])
  ++ (if mentions "子供" name || mentions "チャイルド" name
      then ["👶 子供椅子付"] else [])
  ++ (if mentions "電動" name then ["⚡ 電動アシスト"] else []).

Definition feature_text (name : json) : string :=
  match feature_tags name with
  | [] => EmptyString
  | _ => " (" +:+ Py.join_comma (feature_tags name) +:+ ")"
  end.

(** The test of line 72. *)
Definition has_coordinates (location : json) : bool :=
  Py.truthy location && mentions "x" location && mentions "y" location.

(** The map line for latitude [lat] and longitude [lon]. *)
Definition map_link (lat lon : json) : string :=
  nl +:+ "📍 **返却場所地図:** [Google Mapsで表示](https://www.google.com/maps/search/?api=1&query="
  +:+ str lat +:+ "," +:+ str lon +:+ ")".

Definition link_text (location : json) : string :=
  match location with
  | JObj kv =>
      if has_coordinates location then map_link (entry kv "y") (entry kv "x")
      else EmptyString
  | _ => EmptyString
  end.

(** The values of [end_location] that lines 71-74 get through. *)
Definition location_prints (location : json) : bool :=
  match location with
  | JObj _ => true
  | JStr _ | JArr _ => negb (has_coordinates location)
  | _ => negb (Py.truthy location)
  end.

(** The records whose message can be built. *)
Definition printable (fields : list (string * json)) : bool :=
  is_container (name_entry fields)
  && location_prints (entry fields "end_location").

(** The message of a printable record. *)
Definition message (fields : list (string * json)) : string :=
  (if is_return (entry fields "end_date") then title_returned else title_started)
  +:+ nl
  +:+ rule +:+ nl
  +:+ "**自転車:** " +:+ str (name_entry fields)
  +:+ feature_text (name_entry fields) +:+ nl
  +:+ "**ポート:** "
  +:+ str (if Py.truthy (entry fields "port") then entry fields "port"
           else JStr "不明") +:+ nl
  +:+ "**開始:** " +:+ str (format_datetime (entry fields "scheduled_start")) +:+ nl
  +:+ "**返却:** " +:+ str (format_datetime (entry fields "end_date"))
  +:+ link_text (entry fields "end_location") +:+ nl
  +:+ rule.

(** The message up to the line of the start time. *)
Definition message_head (fields : list (string * json)) : string :=
  (if is_return (entry fields "end_date") then title_returned else title_started)
  +:+ nl
  +:+ rule +:+ nl
  +:+ "**自転車:** " +:+ str (name_entry fields)
  +:+ feature_text (name_entry fields) +:+ nl
  +:+ "**ポート:** "
  +:+ str (if Py.truthy (entry fields "port") then entry fields "port"
           else JStr "不明") +:+ nl
  +:+ "**開始:** " +:+ str (format_datetime (entry fields "scheduled_start")) +:+ nl.

(** Line 19 of [log_setup_info]: what is shown of the webhook URL.  Lengths
    and slices count bytes here and characters in Python; they agree on a
    URL of ASCII characters. *)
Definition masked_url (url : string) : string :=
  if 30 <? String.length url then String.substring 0 30 url +:+ "..."
  else "Too Short".

(** ** Traces and the monad *)

Lemma posts_app t1 t2 : posts (t1 ++ t2) = posts t1 ++ posts t2.
Proof. apply omap_app. Qed.

Lemma writes_app t1 t2 : writes (t1 ++ t2) = writes t1 ++ writes t2.
Proof. apply omap_app. Qed.

Lemma delivery_log_app t1 t2 :
  delivery_log (t1 ++ t2) = delivery_log t1 ++ delivery_log t2.
Proof. apply omap_app. Qed.

Lemma notified_app t1 t2 : notified (t1 ++ t2) = notified t1 ++ notified t2.
Proof. unfold notified. by rewrite posts_app, fmap_app. Qed.

Lemma changes_app t1 t2 : changes (t1 ++ t2) = changes t1 ++ changes t2.
Proof. apply omap_app. Qed.

Lemma quiet_nil : quiet [].
Proof. by repeat split. Qed.

Lemma quiet_app t1 t2 : quiet t1 → quiet t2 → quiet (t1 ++ t2).
Proof.
  intros (p1 & w1 & d1 & c1) (p2 & w2 & d2 & c2). unfold quiet.
  rewrite posts_app, writes_app, delivery_log_app, changes_app.
  by rewrite p1, p2, w1, w2, d1, d2, c1, c2.
Qed.

Lemma bind_Ok {A B : Type} (t : list event) (a : A) (k : A → M B) :
  bind (t, Ok a) k = (t ++ fst (k a), snd (k a)).
Proof. simpl. by destruct (k a). Qed.

Lemma bind_Raise {A B : Type} (t : list event) (e : exn) (k : A → M B) :
  bind (t, Raise e) k = (t, Raise e).
Proof. reflexivity. Qed.

Lemma bind_eta {A B : Type} (m : M A) (k : A → M B) :
  bind m k = bind (fst m, snd m) k.
Proof. by destruct m. Qed.

(** ** The fetcher *)

Lemma fetch_history_value w bike_id :
  snd (fetch_history w bike_id) = Ok (fetch_value w bike_id).
Proof.
  unfold fetch_history, fetch_value. simpl.
  destruct (api w bike_id 0); [done|]. simpl.
  destruct (api w bike_id 1); [done|]. simpl.
  by destruct (api w bike_id 2).
Qed.

Lemma fetch_history_quiet w bike_id : quiet (fst (fetch_history w bike_id)).
Proof.
  unfold fetch_history. simpl.
  destruct (api w bike_id 0); [done|]. simpl.
  destruct (api w bike_id 1); [done|]. simpl.
  by destruct (api w bike_id 2).
Qed.

Lemma fetch_value_fails w bike_id :
  fetch_fails w bike_id → fetch_value w bike_id = JArr [].
Proof.
  intros F. unfold fetch_value.
  by rewrite (F 0), (F 1), (F 2) by lia.
Qed.

Lemma visit_bike_value w last_ids st bike_id :
  snd (visit_bike w last_ids st bike_id)
  = visit_history last_ids st (fetch_value w bike_id).
Proof.
  unfold visit_bike. rewrite bind_eta, fetch_history_value, bind_Ok.
  reflexivity.
Qed.

Lemma visit_bike_quiet w last_ids st bike_id :
  quiet (fst (visit_bike w last_ids st bike_id)).
Proof.
  unfold visit_bike. rewrite bind_eta, fetch_history_value, bind_Ok.
  simpl. rewrite app_nil_r. apply fetch_history_quiet.
Qed.

Lemma scan_loop_value w last_ids bikes : ∀ st,
  snd (for_each_M (visit_bike w last_ids) st bikes)
  = for_each (visit_history last_ids) st (map (fetch_value w) bikes).
Proof.
  induction bikes as [|b bikes IH]; intros st; [done|].
  cbn [for_each_M for_each map]. rewrite bind_eta, visit_bike_value.
  destruct (visit_history last_ids st (fetch_value w b)) as [st'|e]; [|done].
  rewrite bind_Ok. apply IH.
Qed.

Lemma scan_loop_quiet w last_ids bikes : ∀ st,
  quiet (fst (for_each_M (visit_bike w last_ids) st bikes)).
Proof.
  induction bikes as [|b bikes IH]; intros st; [apply quiet_nil|].
  cbn [for_each_M]. rewrite bind_eta.
  destruct (snd (visit_bike w last_ids st b)) as [st'|e].
  - rewrite bind_Ok. apply quiet_app; [apply visit_bike_quiet | apply IH].
  - apply visit_bike_quiet.
Qed.

(** ** The record key *)

Lemma record_key_running :
  record_key record_running = Ok "3592_2024-01-01T10:00:00.000Z_-".
Proof. reflexivity. Qed.

Lemma record_key_returned :
  record_key record_returned
  = Ok "3592_2024-01-01T10:00:00.000Z_2024-01-01T12:00:00.000Z".
Proof. reflexivity. Qed.

(** Absent entries print as [None]. *)
Lemma record_key_absent : record_key (JObj []) = Ok "None_None_None".
Proof. reflexivity. Qed.

Lemma record_key_object fields : ∃ k, record_key (JObj fields) = Ok k.
Proof. unfold record_key. cbn. eauto. Qed.

Lemma record_key_not_object record :
  is_object record = false → record_key record = Raise AttributeError.
Proof. by destruct record. Qed.

(** ** The change-detection loops *)

Lemma identities_app l1 l2 :
  identities (l1 ++ l2) = identities l1 ∪ identities l2.
Proof. unfold identities. by rewrite omap_app, list_to_set_app_L. Qed.

Lemma identities_cons record k l :
  record_key record = Ok k → identities (record :: l) = {[ k ]} ∪ identities l.
Proof. intros K. unfold identities. cbn [omap list_omap]. unfold key_of at 1. by rewrite K. Qed.

Lemma promoted_app last_ids l1 l2 :
  promoted last_ids (l1 ++ l2) = promoted last_ids l1 ++ promoted last_ids l2.
Proof. unfold promoted. case_bool_decide; [apply List.filter_app | done]. Qed.

Lemma promoted_nil last_ids : promoted last_ids [] = [].
Proof. unfold promoted. by case_bool_decide. Qed.

Lemma identities_nil : identities [] = ∅.
Proof. reflexivity. Qed.

Lemma promoted_cons last_ids record k l :
  record_key record = Ok k →
  promoted last_ids (record :: l)
  = (if bool_decide (k ∉ last_ids) && bool_decide (last_ids ≠ ∅)
     then [record] else []) ++ promoted last_ids l.
Proof.
  intros K. unfold promoted. cbn [List.filter]. unfold fresh at 1. rewrite K.
  by destruct (bool_decide (k ∉ last_ids)), (bool_decide (last_ids ≠ ∅)).
Qed.

Lemma visit_records_spec last_ids records : ∀ st st',
  for_each (visit_record last_ids) st records = Ok st' →
  current_ids st' = identities records ∪ current_ids st
  ∧ new_records st' = new_records st ++ promoted last_ids records
  ∧ fetch_errors st' = fetch_errors st.
Proof.
  induction records as [|r records IH]; intros st st' H.
  - injection H as <-.
    by rewrite identities_nil, promoted_nil, app_nil_r, (left_id_L ∅ (∪)).
  - cbn [for_each] in H.
    destruct (visit_record last_ids st r) as [st1|e] eqn:V; [|done].
    cbn [rbind] in H. apply IH in H as (Hc & Hn & He).
    unfold visit_record in V.
    destruct (record_key r) as [k|e] eqn:K; [|done]. cbn [rbind] in V.
    rewrite (identities_cons r k records K), (promoted_cons _ r k _ K).
    rewrite Hc, Hn, He.
    destruct (bool_decide (k ∉ last_ids) && bool_decide (last_ids ≠ ∅));
      injection V as <-; cbn [current_ids new_records fetch_errors];
      repeat split.
    + set_solver.
    + by rewrite <- app_assoc.
    + set_solver.
Qed.

Lemma visit_history_spec last_ids history st st' :
  visit_history last_ids st history = Ok st' →
  current_ids st' = identities (records_of history) ∪ current_ids st
  ∧ new_records st' = new_records st ++ promoted last_ids (records_of history)
  ∧ fetch_errors st' = fetch_errors st + (if counts_as_error history then 1 else 0).
Proof.
  unfold visit_history. fold (counts_as_error history).
  destruct (counts_as_error history) eqn:C.
  - intros [= <-]. cbn [current_ids new_records fetch_errors].
    assert (records_of history = []) as -> by (by destruct history as [| | | | |[|]|]).
    by rewrite identities_nil, promoted_nil, app_nil_r, (left_id_L ∅ (∪)).
  - intros H. rewrite Nat.add_0_r.
    destruct history as [|b|z|t|s|l|kv]; try discriminate H.
    + destruct s as [|c s]; [discriminate C|]. cbn in H. discriminate H.
    + by apply visit_records_spec in H.
    + destruct kv as [|[k v] kv]; [discriminate C|]. cbn in H. discriminate H.
Qed.

Lemma scan_loop_spec w last_ids bikes : ∀ st st',
  for_each (visit_history last_ids) st (map (fetch_value w) bikes) = Ok st' →
  current_ids st' = identities (fetched_records w bikes) ∪ current_ids st
  ∧ new_records st' = new_records st ++ promoted last_ids (fetched_records w bikes)
  ∧ fetch_errors st'
    = fetch_errors st
      + length (List.filter (fun b => counts_as_error (fetch_value w b)) bikes).
Proof.
  induction bikes as [|b bikes IH]; intros st st' H.
  - injection H as <-. unfold fetched_records. cbn [flat_map List.filter length].
    rewrite identities_nil, promoted_nil, app_nil_r, (left_id_L ∅ (∪)).
    repeat split. lia.
  - cbn [map for_each] in H.
    destruct (visit_history last_ids st (fetch_value w b)) as [st1|e] eqn:V; [|done].
    cbn [rbind] in H. apply IH in H as (Hc & Hn & He).
    apply visit_history_spec in V as (Vc & Vn & Ve).
    unfold fetched_records in *. cbn [flat_map List.filter].
    rewrite identities_app, promoted_app, Hc, Hn, He, Vc, Vn, Ve.
    repeat split.
    + set_solver.
    + by rewrite app_assoc.
    + destruct (counts_as_error (fetch_value w b)); cbn [length]; lia.
Qed.

(** The loops end normally, with no fetch error counted, when every
    history is an array of objects. *)
Lemma visit_records_total last_ids records : ∀ st,
  forallb is_object records = true →
  ∃ st', for_each (visit_record last_ids) st records = Ok st'.
Proof.
  induction records as [|r records IH]; intros st F; [by exists st|].
  apply andb_prop in F as [O F]. destruct r as [| | | | | |fields]; try done.
  cbn [for_each]. unfold visit_record at 1.
  destruct (record_key_object fields) as [k ->]. cbn [rbind].
  destruct (bool_decide (k ∉ last_ids) && bool_decide (last_ids ≠ ∅));
    cbn [rbind]; by apply IH.
Qed.

Lemma visit_history_total last_ids history st :
  is_history history = true →
  ∃ st', visit_history last_ids st history = Ok st'.
Proof.
  destruct history as [| | | | |l|]; try done. intros F.
  unfold visit_history. destruct l as [|r l]; [by exists st|].
  by apply visit_records_total.
Qed.

Lemma scan_loop_total w last_ids bikes : ∀ st,
  (∀ b, b ∈ bikes → is_history (fetch_value w b) = true) →
  ∃ st', for_each (visit_history last_ids) st (map (fetch_value w) bikes) = Ok st'.
Proof.
  induction bikes as [|b bikes IH]; intros st F; [by exists st|].
  cbn [map for_each].
  destruct (visit_history_total last_ids (fetch_value w b) st) as [st1 ->];
    [apply F; left|].
  cbn [rbind]. apply IH. intros b' Hb'. apply F. by right.
Qed.

(** What the locals hold when the loops of a run end normally. *)
Lemma scan_result_spec w st :
  scan_result w = Ok st →
  current_ids st = identities (fetched_records w BIKE_IDS)
  ∧ new_records st
    = promoted (load_state (state_file w)) (fetched_records w BIKE_IDS)
  ∧ fetch_errors st
    = length (List.filter (fun b => counts_as_error (fetch_value w b)) BIKE_IDS).
Proof.
  unfold scan_result, scan. rewrite scan_loop_value. intros H.
  apply scan_loop_spec in H as (Hc & Hn & He).
  rewrite Hc, Hn, He. unfold start_state.
  cbn [current_ids new_records fetch_errors].
  by rewrite (right_id_L ∅ (∪)).
Qed.

(** ** The dispatcher *)

Lemma send_spec w k record :
  send_discord_notification w k record
  = match prepared w record with
    | Ok (bike_id, content) =>
        ([HttpPost record content;
          Printed (if webhook w k content then NotificationSent bike_id
                 else FailedToSend)], Ok tt)
    | Raise e => ([], Raise e)
    end.
Proof.
  unfold send_discord_notification, prepared, lift.
  destruct (Py.get record "bike_id" JNull) as [b|e]; [|done].
  destruct (format_message record) as [c|e]; [|done].
  destruct (build_request w) as [[]|e]; [|done].
  cbn. by destruct (webhook w k c).
Qed.

Lemma notify_all_cons w k record rest :
  notify_all w k (record :: rest)
  = match prepared w record with
    | Ok (bike_id, content) =>
        ([HttpPost record content;
          Printed (if webhook w k content then NotificationSent bike_id
                 else FailedToSend);
          Sleep] ++ fst (notify_all w (S k) rest),
         snd (notify_all w (S k) rest))
    | Raise e => ([], Raise e)
    end.
Proof.
  cbn [notify_all]. rewrite send_spec.
  destruct (prepared w record) as [[b c]|e]; [|done].
  rewrite bind_Ok. cbn [fst snd emit bind].
  by destruct (notify_all w (S k) rest).
Qed.

Lemma prepared_with_webhook w h record :
  prepared (with_webhook w h) record = prepared w record.
Proof. reflexivity. Qed.

(** Once the message is built, sending depends on the request alone. *)
Lemma prepared_formats w record :
  formats record →
  ∃ bike_id content,
    format_message record = Ok content
    ∧ prepared w record = let? _ := build_request w in Ok (bike_id, content).
Proof.
  intros [c Fc]. destruct record as [| | | | | |fields]; try (by cbn in Fc).
  unfold prepared. rewrite Fc. cbn [Py.get rbind]. eauto.
Qed.

Lemma notify_all_writes w records : ∀ k,
  writes (fst (notify_all w k records)) = [].
Proof.
  induction records as [|r records IH]; intros k; [done|].
  rewrite notify_all_cons. destruct (prepared w r) as [[b c]|e]; [|done].
  cbn [fst]. rewrite writes_app, IH. by destruct (webhook w k c).
Qed.

(** The dispatch loop does not open the state file. *)
Lemma notify_all_changes w records : ∀ k,
  changes (fst (notify_all w k records)) = [].
Proof.
  induction records as [|r records IH]; intros k; [done|].
  rewrite notify_all_cons. destruct (prepared w r) as [[b c]|e]; [|done].
  cbn [fst]. rewrite changes_app, IH. by destruct (webhook w k c).
Qed.

(** The records POSTed are the first records of the list, in order. *)
Lemma notify_all_prefix w records : ∀ k,
  notified (fst (notify_all w k records)) `prefix_of` records.
Proof.
  induction records as [|r records IH]; intros k; [by exists []|].
  rewrite notify_all_cons. destruct (prepared w r) as [[b c]|e].
  - cbn [fst]. rewrite notified_app.
    replace (notified _) with [r] by (by destruct (webhook w k c)).
    apply prefix_cons, IH.
  - apply prefix_nil.
Qed.

(** When no send raises, every record of the list is POSTed. *)
Lemma notify_all_sendable w records : ∀ k,
  Forall (sendable w) records →
  snd (notify_all w k records) = Ok tt
  ∧ notified (fst (notify_all w k records)) = records.
Proof.
  induction records as [|r records IH]; intros k F; [done|].
  apply Forall_cons in F as [[[b c] P] F].
  rewrite notify_all_cons, P. cbn [fst snd]. rewrite notified_app.
  destruct (IH (S k) F) as [-> ->]. split; [done|].
  by destruct (webhook w k c).
Qed.

(** What is POSTed, and how the loop ends, does not depend on what the
    webhook answers. *)
Lemma notify_all_webhook w h records : ∀ k,
  posts (fst (notify_all (with_webhook w h) k records))
  = posts (fst (notify_all w k records))
  ∧ snd (notify_all (with_webhook w h) k records)
    = snd (notify_all w k records).
Proof.
  induction records as [|r records IH]; intros k; [done|].
  rewrite !notify_all_cons, prepared_with_webhook.
  destruct (prepared w r) as [[b c]|e]; [|done].
  cbn [fst snd]. rewrite !posts_app. destruct (IH (S k)) as [-> ->].
  split; [|done].
  by destruct (webhook w k c), (webhook (with_webhook w h) k c).
Qed.

(** Every POST is followed by its outcome line, failed or not. *)
Lemma notify_all_log w records : ∀ k,
  delivery_log (fst (notify_all w k records))
  = outcomes w k (posts (fst (notify_all w k records))).
Proof.
  induction records as [|r records IH]; intros k; [done|].
  rewrite notify_all_cons. destruct (prepared w r) as [[b c]|e]; [|done].
  cbn [fst]. rewrite delivery_log_app, posts_app, IH.
  destruct (webhook w k c) eqn:W; cbn; by rewrite W.
Qed.

Lemma dispatch_facts w records :
  posts (fst (dispatch w records)) = posts (fst (notify_all w 0 records))
  ∧ delivery_log (fst (dispatch w records))
    = delivery_log (fst (notify_all w 0 records))
  ∧ writes (fst (dispatch w records)) = []
  ∧ changes (fst (dispatch w records)) = []
  ∧ snd (dispatch w records) = snd (notify_all w 0 records).
Proof.
  destruct records as [|r records]; [done|].
  unfold dispatch, print, emit. rewrite bind_Ok. cbn [fst snd].
  rewrite posts_app, delivery_log_app, writes_app, changes_app.
  rewrite notify_all_writes, notify_all_changes.
  done.
Qed.

(** ** One run *)

Lemma catch_observed m :
  posts (catch m) = posts (fst m)
  ∧ writes (catch m) = writes (fst m)
  ∧ delivery_log (catch m) = delivery_log (fst m)
  ∧ changes (catch m) = changes (fst m).
Proof.
  destruct m as [t [u|e]]; [done|]. cbn [catch fst].
  rewrite posts_app, writes_app, delivery_log_app, changes_app.
  by rewrite !app_nil_r.
Qed.

(** Everything [main] does before its [try] block is logging. *)
Lemma main_observed w :
  let body := fst (check w (load_state (state_file w)) BIKE_IDS) in
  posts (main w) = posts body
  ∧ writes (main w) = writes body
  ∧ delivery_log (main w) = delivery_log body
  ∧ changes (main w) = changes body.
Proof.
  intros body. unfold main.
  assert (Q1 : quiet (fst (log_setup_info w))).
  { unfold log_setup_info. destruct (WEBHOOK_URL w) as [u|]; [|done].
    by destruct (String.eqb u EmptyString). }
  assert (Q2 : quiet (load_log (state_file w))) by (by destruct (state_file w)).
  destruct Q1 as (p1 & w1 & d1 & c1), Q2 as (p2 & w2 & d2 & c2).
  destruct (catch_observed (check w (load_state (state_file w)) BIKE_IDS))
    as (pc & wc & dc & cc).
  rewrite !posts_app, !writes_app, !delivery_log_app, !changes_app.
  by rewrite p1, p2, w1, w2, d1, d2, c1, c2, pc, wc, dc, cc.
Qed.

Lemma check_unfold w last_ids bikes :
  check w last_ids bikes
  = bind (fst (scan w last_ids bikes), snd (scan w last_ids bikes))
         (conclude w last_ids).
Proof. unfold check. apply bind_eta. Qed.

Lemma scan_quiet w last_ids bikes : quiet (fst (scan w last_ids bikes)).
Proof. apply scan_loop_quiet. Qed.

(** A run whose loops raise: no POST, no write. *)
Lemma run_aborted w e : scan_result w = Raise e → quiet (main w).
Proof.
  intros H. destruct (main_observed w) as (P & W & D & C).
  unfold quiet. rewrite P, W, D, C, check_unfold.
  unfold scan_result in H. rewrite H, bind_Raise. apply scan_quiet.
Qed.

(** A run stopped by the test of line 149: no POST, no write. *)
Lemma run_barred w st :
  scan_result w = Ok st → barred st = true → quiet (main w).
Proof.
  intros H B. destruct (main_observed w) as (P & W & D & C).
  unfold quiet. rewrite P, W, D, C, check_unfold.
  unfold scan_result in H. rewrite H, bind_Ok.
  apply quiet_app; [apply scan_quiet|].
  unfold conclude. fold (barred st). by rewrite B.
Qed.

(** A run that passes the test of line 149: the POSTs are those of the
    dispatch loop, and the state file is opened for writing once if that
    loop ends normally; the write completes when the keys of the run
    encode. *)
Lemma run_eligible w st :
  scan_result w = Ok st → barred st = false →
  let sent := notify_all w 0 (new_records st) in
  posts (main w) = posts (fst sent)
  ∧ delivery_log (main w) = delivery_log (fst sent)
  ∧ writes (main w)
    = match snd sent with
      | Ok _ =>
          if writable (current_ids st)
          then [load_state (state_file w) ∪ current_ids st] else []
      | Raise _ => []
      end
  ∧ changes (main w)
    = match snd sent with
      | Ok _ => [saved (load_state (state_file w)) st]
      | Raise _ => []
      end.
Proof.
  intros H B sent. destruct (main_observed w) as (P & W & D & C).
  rewrite P, W, D, C, check_unfold.
  unfold scan_result in H. rewrite H, bind_Ok. cbn [fst].
  destruct (scan_quiet w (load_state (state_file w)) BIKE_IDS)
    as (sp & sw & sd & sc).
  rewrite posts_app, writes_app, delivery_log_app, changes_app, sp, sw, sd, sc.
  unfold conclude, saved. fold (barred st). rewrite B.
  destruct (dispatch_facts w (new_records st)) as (dp & dd & dw & dc & dr).
  rewrite bind_eta. fold sent in dp, dd, dr. rewrite dr.
  destruct (snd sent) as [u|e].
  - rewrite bind_Ok. cbn [fst].
    rewrite posts_app, writes_app, delivery_log_app, changes_app, dp, dd, dw, dc.
    destruct (writable (current_ids st)); cbn; by rewrite ?app_nil_r.
  - rewrite bind_Raise. cbn [fst]. by rewrite dp, dd, dw, dc.
Qed.

Lemma notified_prefix_new w st :
  scan_result w = Ok st → notified (main w) `prefix_of` new_records st.
Proof.
  intros H. unfold notified. destruct (barred st) eqn:B.
  - destruct (run_barred w st H B) as (-> & _). apply prefix_nil.
  - destruct (run_eligible w st H B) as (-> & _). apply notify_all_prefix.
Qed.

Lemma persisted_of_changes w :
  persisted w
  = match last (changes (main w)) with
    | Some f => load_state f
    | None => load_state (state_file w)
    end.
Proof. unfold persisted, disk_after. by destruct (last (changes (main w))). Qed.



Lemma count_key_app k l1 l2 :
  count_key k (l1 ++ l2) = count_key k l1 + count_key k l2.
Proof. unfold count_key. by rewrite List.filter_app, length_app. Qed.

Lemma count_key_prefix k l1 l2 :
  l1 `prefix_of` l2 → count_key k l1 ≤ count_key k l2.
Proof. intros [rest ->]. rewrite count_key_app. lia. Qed.

Lemma count_key_filter k f l :
  count_key k (List.filter f l) ≤ count_key k l.
Proof.
  unfold count_key. induction l as [|r l IH]; [done|].
  cbn [List.filter].
  destruct (f r); cbn [List.filter]; destruct (has_key k r); cbn [length]; lia.
Qed.

Lemma count_key_promoted k last_ids l :
  count_key k (promoted last_ids l) ≤ count_key k l.
Proof.
  unfold promoted. case_bool_decide; [apply count_key_filter|].
  unfold count_key. cbn. lia.
Qed.

Lemma key_in_identities record k l :
  record ∈ l → record_key record = Ok k → k ∈ identities l.
Proof.
  intros In K. unfold identities. apply elem_of_list_to_set.
  apply list_elem_of_omap. exists record. split; [done|].
  unfold key_of. by rewrite K.
Qed.

Lemma scan_completes w :
  (∀ b, b ∈ BIKE_IDS → is_history (fetch_value w b) = true) →
  ∃ st, scan_result w = Ok st.
Proof.
  intros F. unfold scan_result, scan. rewrite scan_loop_value.
  by apply scan_loop_total.
Qed.


Lemma check_result_eligible w st :
  scan_result w = Ok st → barred st = false →
  snd (check w (load_state (state_file w)) BIKE_IDS)
  = match snd (notify_all w 0 (new_records st)) with
    | Ok _ =>
        if writable (current_ids st) then Ok tt else Raise UnicodeEncodeError
    | Raise e => Raise e
    end.
Proof.
  intros H B. rewrite check_unfold. unfold scan_result in H.
  rewrite H, bind_Ok. cbn [snd]. unfold conclude. fold (barred st). rewrite B.
  destruct (dispatch_facts w (new_records st)) as (_ & _ & _ & _ & R).
  rewrite bind_eta, R.
  destruct (snd (notify_all w 0 (new_records st))) as [[]|e]; [|done].
  rewrite bind_Ok. cbn [snd]. by destruct (writable (current_ids st)).
Qed.

Lemma check_result_aborted w e :
  scan_result w = Raise e →
  snd (check w (load_state (state_file w)) BIKE_IDS) = Raise e.
Proof.
  intros H. rewrite check_unfold. unfold scan_result in H. by rewrite H.
Qed.

(** The last line of a run whose [try] block raises. *)
Lemma main_last_error w e :
  snd (check w (load_state (state_file w)) BIKE_IDS) = Raise e →
  last (main w) = Some (Printed (UnexpectedError e)).
Proof.
  intros H. unfold main. rewrite !app_assoc.
  destruct (check w (load_state (state_file w)) BIKE_IDS) as [t r].
  cbn [snd] in H. subst r. cbn [catch]. rewrite app_assoc. apply last_snoc.
Qed.

Lemma new_record_not_barred w st :
  scan_result w = Ok st → new_records st ≠ [] → barred st = false.
Proof.
  intros H N. destruct (scan_result_spec w st H) as (Hc & Hn & _).
  unfold barred. rewrite bool_decide_eq_false_2; [done|].
  destruct (new_records st) as [|r rest] eqn:E; [done|].
  assert (In : r ∈ promoted (load_state (state_file w)) (fetched_records w BIKE_IDS)).
  { rewrite <- Hn. left. }
  unfold promoted in In. case_bool_decide; [|by apply elem_of_nil in In].
  apply list_elem_of_In, List.filter_In in In as [In Fr].
  unfold fresh in Fr. destruct (record_key r) as [k|] eqn:K; [|done].
  rewrite Hc. intros Em.
  assert (k ∈ identities (fetched_records w BIKE_IDS)) as Hk.
  { apply (key_in_identities r); [by apply list_elem_of_In|done]. }
  rewrite Em in Hk. by apply not_elem_of_empty in Hk.
Qed.

(** What a run POSTs and what it leaves in the state file do not depend
    on what the webhook answers. *)
Lemma answers_do_not_matter w h :
  posts (main (with_webhook w h)) = posts (main w)
  ∧ persisted (with_webhook w h) = persisted w.
Proof.
  assert (S : scan_result (with_webhook w h) = scan_result w) by reflexivity.
  rewrite !persisted_of_changes.
  change (state_file (with_webhook w h)) with (state_file w).
  destruct (scan_result w) as [st|e] eqn:H.
  - destruct (barred st) eqn:B.
    + destruct (run_barred w st H B) as (-> & _ & _ & ->).
      by destruct (run_barred _ st S B) as (-> & _ & _ & ->).
    + destruct (run_eligible w st H B) as (-> & _ & _ & ->).
      destruct (run_eligible _ st S B) as (-> & _ & _ & ->).
      by destruct (notify_all_webhook w h (new_records st) 0) as [-> ->].
  - destruct (run_aborted w e H) as (-> & _ & _ & ->).
    by destruct (run_aborted _ e S) as (-> & _ & _ & ->).
Qed.

(** ** The claims *)


(** C2, the behaviour the code shows in place of fetch-failure accounting.
    When the three attempts for a bike fail, [fetch_history] returns the
    empty list, the test of line 130 is false for it, and the turn of the
    loop leaves all locals as they were: [fetch_errors] is not
    incremented. *)
Theorem failed_fetch_not_counted w last_ids st bike_id :
  fetch_fails w bike_id →
  snd (fetch_history w bike_id) = Ok (JArr [])
  ∧ counts_as_error (JArr []) = false
  ∧ snd (visit_bike w last_ids st bike_id) = Ok st.
Proof.
  intros F.
  rewrite fetch_history_value, visit_bike_value, (fetch_value_fails w bike_id F).
  done.
Qed.

(** C3 as amended.  For every run and every identity, the notifications
    POSTed for that identity are at most as many as the fetched records
    that carry it: new records are notified one by one, with no merging of
    records that share a key. *)
Theorem notifications_at_most_fetched w k :
  count_key k (notified (main w)) ≤ count_key k (fetched_records w BIKE_IDS).
Proof.
  destruct (scan_result w) as [st|e] eqn:H.
  - etrans; [apply count_key_prefix, (notified_prefix_new w st H)|].
    destruct (scan_result_spec w st H) as (_ & -> & _).
    apply count_key_promoted.
  - destruct (run_aborted w e H) as (P & _). unfold notified. rewrite P.
    unfold count_key. cbn. lia.
Qed.

(** C4 as amended, cold-start silence.  In a run that starts from the
    empty set and whose loops end with [fetch_errors = 0], nothing is
    POSTed.  When every key of the fetched records encodes, the set stored
    afterwards is the set of those keys.  When one of them does not, the
    write of line 169 raises after line 168 has emptied the file: nothing
    is stored, the file no longer loads, and a following run starts from
    the empty set again. *)
Theorem cold_start_silence w st :
  load_state (state_file w) = ∅ →
  scan_result w = Ok st →
  fetch_errors st = 0 →
  notified (main w) = []
  ∧ (if writable (identities (fetched_records w BIKE_IDS))
     then writes (main w) = [identities (fetched_records w BIKE_IDS)]
          ∧ persisted w = identities (fetched_records w BIKE_IDS)
     else writes (main w) = []
          ∧ disk_after (state_file w) (main w) = Unreadable
          ∧ persisted w = ∅).
Proof.
  intros L H E.
  destruct (scan_result_spec w st H) as (Hc & Hn & _).
  assert (B : barred st = false).
  { unfold barred. rewrite E. apply andb_false_r. }
  assert (N : new_records st = []).
  { rewrite Hn, L. unfold promoted. by rewrite bool_decide_eq_false_2 by (by intros ?). }
  destruct (run_eligible w st H B) as (P & _ & W & C).
  rewrite N in P, W, C. cbn [notify_all ret fst snd] in P, W, C.
  unfold saved in C. rewrite L, Hc, (left_id_L ∅ (∪)) in W, C.
  unfold notified. rewrite P. split; [done|].
  rewrite persisted_of_changes. unfold disk_after. rewrite W, C.
  by destruct (writable (identities (fetched_records w BIKE_IDS))).
Qed.

(** C5 as amended.  In a run that starts from a non-empty set [S], whose
    fetched records have the keys [S ∪ {x}] with [x] not in [S], and in
    which no send raises before its POST: the notifications are the
    fetched records that carry [x], one POST for each in fetch order (so
    exactly one when a single fetched record carries [x]).  The set stored
    afterwards is [S ∪ {x}] when its keys encode; when [x] does not, the
    write raises after the POSTs, with the file emptied, and a following
    run loads the empty set. *)
Theorem incremental_detection w st x :
  load_state (state_file w) ≠ ∅ →
  scan_result w = Ok st →
  current_ids st = load_state (state_file w) ∪ {[ x ]} →
  x ∉ load_state (state_file w) →
  Forall (sendable w) (List.filter (has_key x) (fetched_records w BIKE_IDS)) →
  notified (main w) = List.filter (has_key x) (fetched_records w BIKE_IDS)
  ∧ length (notified (main w)) = count_key x (fetched_records w BIKE_IDS)
  ∧ persisted w
    = (if writable (load_state (state_file w) ∪ {[ x ]})
       then load_state (state_file w) ∪ {[ x ]} else ∅).
Proof.
  intros NE H C X F.
  destruct (scan_result_spec w st H) as (Hc & Hn & _).
  assert (E : new_records st
              = List.filter (has_key x) (fetched_records w BIKE_IDS)).
  { rewrite Hn. unfold promoted. rewrite bool_decide_eq_true_2 by done.
    apply List.filter_ext_in. intros r In. unfold fresh, has_key.
    destruct (record_key r) as [k|e] eqn:K; [|done].
    assert (Hk : k ∈ load_state (state_file w) ∪ {[ x ]}).
    { rewrite <- C, Hc. apply (key_in_identities r); [|done].
      by apply list_elem_of_In. }
    destruct (String.eqb_spec k x) as [->|D].
    - by apply bool_decide_eq_true_2.
    - apply bool_decide_eq_false_2. set_solver. }
  assert (B : barred st = false).
  { unfold barred. rewrite bool_decide_eq_false_2; [done|]. rewrite C. set_solver. }
  destruct (run_eligible w st H B) as (P & _ & _ & Ch).
  rewrite <- E in F. destruct (notify_all_sendable w (new_records st) 0 F) as [R N].
  rewrite R in Ch. unfold saved in Ch. rewrite C in Ch.
  unfold notified in *. rewrite P, N, E.
  repeat split. rewrite persisted_of_changes, Ch.
  destruct (writable (load_state (state_file w) ∪ {[ x ]})); cbn; set_solver.
Qed.


(** C7, identity determinism.  Two records whose [bike_id],
    [scheduled_start] and [end_date] entries are equal get the same key,
    whatever their other entries; for a JSON object the key is always
    computed. *)
Theorem identity_determinism (fields1 fields2 : list (string * json)) :
  Py.get (JObj fields1) "bike_id" JNull = Py.get (JObj fields2) "bike_id" JNull →
  Py.get (JObj fields1) "scheduled_start" JNull
  = Py.get (JObj fields2) "scheduled_start" JNull →
  Py.get (JObj fields1) "end_date" JNull = Py.get (JObj fields2) "end_date" JNull →
  record_key (JObj fields1) = record_key (JObj fields2)
  ∧ ∃ k, record_key (JObj fields1) = Ok k.
Proof.
  intros B S E. unfold record_key. rewrite B, S, E. split; [done|].
  cbn. eauto.
Qed.

(** C8, the behaviour the code shows in place of notification-failure
    isolation.  Take a run with new records whose messages can all be
    built.  What the dispatcher does is decided by line 91, where the
    request is made outside the [try] of lines 92-96.  When the request is
    made, every new record is POSTed, in order; each POST is followed by
    the line of its outcome, "Failed to send notification" when the
    webhook does not answer it; and the state file is left as it is left
    when every POST is answered.  When
    [urllib.request.Request] raises (the webhook variable not set, or a
    URL it refuses), the exception leaves [send_discord_notification] on
    the first new record: nothing is POSTed, no outcome line is printed,
    the records after it are not visited, the state file is not touched,
    and the run ends on the "Unexpected error" line. *)
Theorem request_failure_aborts_batch w st :
  scan_result w = Ok st →
  new_records st ≠ [] →
  Forall formats (new_records st) →
  match build_request w with
  | Ok _ =>
      notified (main w) = new_records st
      ∧ delivery_log (main w) = outcomes w 0 (posts (main w))
      ∧ changes (main w) = [saved (load_state (state_file w)) st]
      ∧ ∀ h, persisted (with_webhook w h) = persisted w
  | Raise e =>
      notified (main w) = []
      ∧ delivery_log (main w) = []
      ∧ changes (main w) = []
      ∧ persisted w = load_state (state_file w)
      ∧ last (main w) = Some (Printed (UnexpectedError e))
  end.
Proof.
  intros H N F.
  pose proof (new_record_not_barred w st H N) as B.
  destruct (run_eligible w st H B) as (P & D & _ & C).
  pose proof (check_result_eligible w st H B) as R.
  destruct (build_request w) as [[]|e] eqn:U.
  - assert (S : Forall (sendable w) (new_records st)).
    { eapply Forall_impl; [exact F|]. intros r Fr.
      destruct (prepared_formats w r Fr) as (b & c & _ & Pr).
      exists (b, c). by rewrite Pr, U. }
    destruct (notify_all_sendable w (new_records st) 0 S) as [Rs Nt].
    unfold notified. rewrite P, D, C, Rs. unfold notified in Nt.
    rewrite Nt, notify_all_log. repeat split.
    intros h. apply answers_do_not_matter.
  - revert N F R. destruct (new_records st) as [|r rest]; intros N F R; [done|].
    apply Forall_cons in F as [Fr _].
    destruct (prepared_formats w r Fr) as (b & c & _ & Pr).
    rewrite U in Pr. cbn [rbind] in Pr.
    revert P D C. rewrite notify_all_cons, Pr in R |- *. cbn [fst snd] in R |- *.
    intros P D C. unfold notified. rewrite persisted_of_changes, P, D, C.
    repeat split. by apply main_last_error.
Qed.

(** C9, the behaviour the code shows in place of formatting totality.
    A record whose [name] is a number or [null], or whose [end_location]
    is the text ["xy"], makes the formatting lines of
    [send_discord_notification] raise [TypeError]. *)
Theorem formatting_raises :
  format_message record_numeric_name = Raise TypeError
  ∧ format_message record_null_name = Raise TypeError
  ∧ format_message record_text_location = Raise TypeError.
Proof. repeat split. Qed.

(** C10, a seen identity is never notified again.  Every record POSTed
    in a run has a key, and that key is not in the set loaded when the run
    started. *)
Theorem never_renotify_seen w record :
  record ∈ notified (main w) →
  ∃ k, record_key record = Ok k ∧ k ∉ load_state (state_file w).
Proof.
  intros In. destruct (scan_result w) as [st|e] eqn:H.
  - destruct (notified_prefix_new w st H) as [rest E].
    assert (In' : record ∈ new_records st) by (rewrite E; set_solver).
    destruct (scan_result_spec w st H) as (_ & Hn & _).
    rewrite Hn in In'. unfold promoted in In'.
    case_bool_decide; [|by apply elem_of_nil in In'].
    apply list_elem_of_In, List.filter_In in In' as [_ Fr].
    unfold fresh in Fr. destruct (record_key record) as [k|]; [|done].
    exists k. split; [done|]. by apply bool_decide_eq_true_1 in Fr.
  - destruct (run_aborted w e H) as (P & _). unfold notified in In.
    rewrite P in In. by apply elem_of_nil in In.
Qed.

(** The run of [world_twice], whatever the library routines do on other
    arguments than the webhook URL of the sample. *)
Lemma world_twice_notified :
  url_type_known "https://discord.com/api/webhooks/1/token" = true →
  notified (main world_twice) = [record_b; record_b'].
Proof.
  intros U.
  assert (H : scan_result world_twice = Ok state_twice) by reflexivity.
  destruct (run_eligible world_twice state_twice H eq_refl) as (P & _).
  unfold notified. rewrite P.
  assert (F : Forall (sendable world_twice) (new_records state_twice)).
  { repeat apply Forall_cons_2; [| |apply Forall_nil_2];
      unfold sendable, prepared, build_request; cbn; rewrite U; eauto. }
  by destruct (notify_all_sendable world_twice _ 0 F) as [_ N].
Qed.

(** ** Further properties: the shape of a run *)

Lemma gets_app t1 t2 : gets (t1 ++ t2) = gets t1 ++ gets t2.
Proof. apply omap_app. Qed.

Lemma fetch_error_lines_app t1 t2 :
  fetch_error_lines (t1 ++ t2) = fetch_error_lines t1 ++ fetch_error_lines t2.
Proof. apply omap_app. Qed.

Lemma sleeps_app t1 t2 : sleeps (t1 ++ t2) = sleeps t1 + sleeps t2.
Proof. unfold sleeps. by rewrite List.filter_app, length_app. Qed.

Lemma blocks_app t1 t2 : blocks t1 → blocks t2 → blocks (t1 ++ t2).
Proof.
  induction 1 as [|b t B _ IH]; intros H2; [done|].
  rewrite <- app_assoc. apply blocks_cons; [done|]. by apply IH.
Qed.

Lemma blocks_one b : block b → blocks b.
Proof. intros B. rewrite <- (app_nil_r b). apply blocks_cons; [done|constructor]. Qed.

Lemma blocks_bind {A B : Type} (m : M A) (k : A → M B) :
  blocks (fst m) → (∀ a, blocks (fst (k a))) → blocks (fst (bind m k)).
Proof.
  intros Hm Hk. destruct m as [t [a|e]]; [|done].
  rewrite bind_Ok. by apply blocks_app; [|apply Hk].
Qed.

Lemma blocks_print l : is_fetch_error_line l = false → blocks (fst (print l)).
Proof. intros H. by apply blocks_one, block_line. Qed.

Lemma blocks_fetch_attempts w bike_id n : ∀ attempt,
  blocks (fst (fetch_attempts w bike_id n attempt)).
Proof.
  induction n as [|n IH]; intros attempt; [constructor|].
  cbn [fetch_attempts]. unfold emit at 1. rewrite bind_Ok. cbn [fst].
  apply (blocks_cons [HttpGet bike_id]); [constructor|].
  destruct (api w bike_id attempt) as [v|]; [constructor|].
  unfold print, emit. rewrite !bind_Ok. cbn [fst app].
  apply (blocks_cons [Printed (ErrorFetching bike_id (attempt + 1)); Sleep]);
    [constructor|].
  apply IH.
Qed.

Lemma blocks_scan_loop w last_ids bikes : ∀ st,
  blocks (fst (for_each_M (visit_bike w last_ids) st bikes)).
Proof.
  induction bikes as [|b bikes IH]; intros st; [constructor|].
  cbn [for_each_M]. apply blocks_bind; [|apply IH].
  unfold visit_bike. apply blocks_bind; [apply blocks_fetch_attempts|].
  intros h. constructor.
Qed.

Lemma blocks_notify_all w records : ∀ k, blocks (fst (notify_all w k records)).
Proof.
  induction records as [|r records IH]; intros k; [constructor|].
  rewrite notify_all_cons. destruct (prepared w r) as [[b c]|e]; [|constructor].
  cbn [fst].
  apply (blocks_cons [HttpPost r c; Printed _; Sleep]); [|apply IH].
  constructor. by destruct (webhook w k c).
Qed.

Lemma blocks_conclude w last_ids st : blocks (fst (conclude w last_ids st)).
Proof.
  unfold conclude.
  destruct (bool_decide (current_ids st = ∅) && (0 <? fetch_errors st)).
  - by apply blocks_print.
  - apply blocks_bind;
      [|intros _; destruct (writable (current_ids st));
        [apply blocks_one; constructor|]].
    2: { apply blocks_bind; [apply blocks_one; constructor|]. intros _. constructor. }
    unfold dispatch. destruct (new_records st) as [|r rest]; [by apply blocks_print|].
    apply blocks_bind; [by apply blocks_print|]. intros _. apply blocks_notify_all.
Qed.

(** The trace of a run is a sequence of blocks. *)
Lemma blocks_main w : blocks (main w).
Proof.
  unfold main. repeat apply blocks_app.
  - unfold log_setup_info. destruct (WEBHOOK_URL w) as [u|]; [|by apply blocks_print].
    destruct (String.eqb u EmptyString); by apply blocks_print.
  - destruct (state_file w);
      repeat (apply (blocks_cons [Printed _]); [by constructor|]); constructor.
  - repeat (apply (blocks_cons [Printed _]); [by constructor|]); constructor.
  - assert (B : blocks (fst (check w (load_state (state_file w)) BIKE_IDS))).
    { unfold check. apply blocks_bind; [apply blocks_scan_loop|].
      intros st. apply blocks_conclude. }
    destruct (check w (load_state (state_file w)) BIKE_IDS) as [t [u|e]]; [done|].
    cbn [catch]. apply blocks_app; [done|]. by apply blocks_one, block_line.
Qed.

Lemma blocks_paced t : blocks t → ∀ t', paced true (t ++ t') = paced true t'.
Proof.
  induction 1 as [|b t B _ IH]; intros t'; [done|].
  rewrite <- app_assoc. destruct B as [l L| | | r c l L| |]; cbn; apply IH.
Qed.

Lemma blocks_sleeps t :
  blocks t → sleeps t = length (fetch_error_lines t) + length (posts t).
Proof.
  induction 1 as [|b t B _ IH]; [done|].
  rewrite sleeps_app, fetch_error_lines_app, posts_app, !length_app, IH.
  destruct B as [l L| | | r c l L| |]; cbn; try lia.
  - destruct l; try discriminate L; cbn; lia.
  - destruct l; try discriminate L; cbn; lia.
Qed.

(** X, pacing.  In the trace of a run a POST is never followed by another
    POST before a sleep. *)
Theorem posts_are_paced w : paced true (main w) = true.
Proof.
  rewrite <- (app_nil_r (main w)). by rewrite (blocks_paced _ (blocks_main w)).
Qed.

(** X, sleeps.  A run sleeps once for every failed GET attempt it logs and
    once for every POST, and at no other moment. *)
Theorem sleep_accounting w :
  sleeps (main w) = length (fetch_error_lines (main w)) + length (posts (main w)).
Proof. apply blocks_sleeps, blocks_main. Qed.

(** ** Further properties: the fetcher *)

(** X, first answer.  When attempt [k] is the first of the three that
    answers, [fetch_history] returns that answer after [k + 1] GETs, with
    one error line and one sleep for each of the [k] failed attempts, and
    asks no more. *)
Theorem fetch_history_first_answer w bike_id k v :
  k < 3 →
  (∀ a, a < k → api w bike_id a = None) →
  api w bike_id k = Some v →
  snd (fetch_history w bike_id) = Ok v
  ∧ gets (fst (fetch_history w bike_id)) = replicate (S k) bike_id
  ∧ fetch_error_lines (fst (fetch_history w bike_id))
    = (fun a => (bike_id, S a)) <$> seq 0 k
  ∧ sleeps (fst (fetch_history w bike_id)) = k.
Proof.
  intros K F A. unfold fetch_history.
  destruct k as [|[|[|k]]]; [| | |lia]; cbn [fetch_attempts].
  - by rewrite A.
  - by rewrite (F 0), A by lia.
  - by rewrite (F 0), (F 1), A by lia.
Qed.

(** X, attempts.  [fetch_history] never raises.  It logs [n ≤ 3] failed
    attempts, numbered from one, sleeps once after each, and sends
    [n + 1] GETs, or three when all attempts fail, all for the bike asked;
    after three failures it returns the empty list.  It POSTs and writes
    nothing. *)
Theorem fetch_history_attempts w bike_id :
  ∃ n v,
    n ≤ 3
    ∧ snd (fetch_history w bike_id) = Ok v
    ∧ (n = 3 → v = JArr [])
    ∧ fetch_error_lines (fst (fetch_history w bike_id))
      = (fun a => (bike_id, S a)) <$> seq 0 n
    ∧ sleeps (fst (fetch_history w bike_id)) = n
    ∧ gets (fst (fetch_history w bike_id)) = replicate (min 3 (S n)) bike_id
    ∧ posts (fst (fetch_history w bike_id)) = []
    ∧ writes (fst (fetch_history w bike_id)) = [].
Proof.
  unfold fetch_history. cbn [fetch_attempts].
  destruct (api w bike_id 0) as [v|]; [by exists 0, v; repeat split; try lia|].
  destruct (api w bike_id 1) as [v|]; [by exists 1, v; repeat split; try lia|].
  destruct (api w bike_id 2) as [v|]; [by exists 2, v; repeat split; try lia|].
  by exists 3, (JArr []); repeat split.
Qed.

Lemma fetch_history_gets w bike_id :
  ∃ n, n ≤ 3 ∧ gets (fst (fetch_history w bike_id)) = replicate n bike_id.
Proof.
  unfold fetch_history. cbn [fetch_attempts].
  destruct (api w bike_id 0) as [v|]; [by exists 1; split; [lia|]|].
  destruct (api w bike_id 1) as [v|]; [by exists 2; split; [lia|]|].
  destruct (api w bike_id 2) as [v|]; by exists 3; split; [lia|].
Qed.

Lemma scan_loop_gets w last_ids bikes : ∀ st,
  Forall (fun b => b ∈ bikes) (gets (fst (for_each_M (visit_bike w last_ids) st bikes)))
  ∧ length (gets (fst (for_each_M (visit_bike w last_ids) st bikes)))
    ≤ 3 * length bikes.
Proof.
  induction bikes as [|b bikes IH]; intros st; [by split; [constructor|]|].
  cbn [for_each_M]. rewrite bind_eta.
  assert (G : ∃ n, n ≤ 3 ∧ gets (fst (visit_bike w last_ids st b)) = replicate n b).
  { unfold visit_bike. rewrite bind_eta, fetch_history_value, bind_Ok.
    cbn [fst lift]. rewrite app_nil_r. apply fetch_history_gets. }
  destruct G as (n & N & G).
  assert (Fb : Forall (fun b' => b' ∈ b :: bikes) (replicate n b)).
  { apply Forall_replicate. left. }
  destruct (snd (visit_bike w last_ids st b)) as [st'|e].
  - rewrite bind_Ok. cbn [fst]. rewrite gets_app, G, length_app, length_replicate.
    destruct (IH st') as [F L]. split; [|cbn [length]; lia].
    apply Forall_app. split; [done|].
    eapply Forall_impl; [exact F|]. intros b' Hb'. by right.
  - rewrite bind_Raise. cbn [fst]. rewrite G, length_replicate.
    split; [done|cbn [length]; lia].
Qed.

Lemma notify_all_gets w records : ∀ k, gets (fst (notify_all w k records)) = [].
Proof.
  induction records as [|r records IH]; intros k; [done|].
  rewrite notify_all_cons. destruct (prepared w r) as [[b c]|e]; [|done].
  cbn [fst]. rewrite gets_app, IH. by destruct (webhook w k c).
Qed.

Lemma conclude_gets w last_ids st : gets (fst (conclude w last_ids st)) = [].
Proof.
  unfold conclude.
  destruct (bool_decide (current_ids st = ∅) && (0 <? fetch_errors st)); [done|].
  rewrite bind_eta.
  assert (D : gets (fst (dispatch w (new_records st))) = []).
  { unfold dispatch. destruct (new_records st) as [|r rest]; [done|].
    unfold print, emit. rewrite bind_Ok. cbn [fst].
    by rewrite gets_app, notify_all_gets. }
  destruct (snd (dispatch w (new_records st))) as [u|e].
  - rewrite bind_Ok. cbn [fst]. rewrite gets_app, D.
    by destruct (writable (current_ids st)).
  - by rewrite bind_Raise.
Qed.

Lemma main_gets w :
  gets (main w) = gets (fst (scan w (load_state (state_file w)) BIKE_IDS)).
Proof.
  unfold main. rewrite !gets_app.
  assert (G1 : gets (fst (log_setup_info w)) = []).
  { unfold log_setup_info. destruct (WEBHOOK_URL w) as [u|]; [|done].
    by destruct (String.eqb u EmptyString). }
  assert (G2 : gets (load_log (state_file w)) = []) by (by destruct (state_file w)).
  rewrite G1, G2. cbn [app gets omap list_omap].
  rewrite check_unfold.
  destruct (snd (scan w (load_state (state_file w)) BIKE_IDS)) as [st|e].
  - rewrite bind_Ok.
    destruct (snd (conclude w (load_state (state_file w)) st));
      cbn [catch fst]; rewrite ?gets_app, conclude_gets; cbn; by rewrite ?app_nil_r.
  - rewrite bind_Raise. cbn [catch]. rewrite gets_app. cbn. by rewrite app_nil_r.
Qed.

Lemma filter_replicate (b b' : Z) n :
  length (List.filter (Z.eqb b) (replicate n b'))
  = if (b =? b')%Z then n else 0.
Proof.
  induction n as [|n IH]; [by destruct (b =? b')%Z|].
  cbn [replicate List.filter]. destruct (b =? b')%Z; cbn [length]; by rewrite ?IH.
Qed.

(** The GETs for one bike: three at most for each of its turns. *)
Lemma scan_loop_gets_bike w last_ids b bikes : ∀ st,
  length (List.filter (Z.eqb b)
            (gets (fst (for_each_M (visit_bike w last_ids) st bikes))))
  ≤ 3 * length (List.filter (Z.eqb b) bikes).
Proof.
  induction bikes as [|b' bikes IH]; intros st; [done|].
  cbn [for_each_M]. rewrite bind_eta.
  assert (G : ∃ n, n ≤ 3 ∧ gets (fst (visit_bike w last_ids st b')) = replicate n b').
  { unfold visit_bike. rewrite bind_eta, fetch_history_value, bind_Ok.
    cbn [fst lift]. rewrite app_nil_r. apply fetch_history_gets. }
  destruct G as (n & N & G). cbn [List.filter].
  destruct (snd (visit_bike w last_ids st b')) as [st'|e].
  - rewrite bind_Ok. cbn [fst].
    rewrite gets_app, G, List.filter_app, length_app, filter_replicate.
    specialize (IH st'). destruct (b =? b')%Z; cbn [length]; lia.
  - rewrite bind_Raise. cbn [fst]. rewrite G, filter_replicate.
    destruct (b =? b')%Z; cbn [length]; lia.
Qed.

Lemma BIKE_IDS_NoDup : NoDup BIKE_IDS.
Proof. apply (bool_decide_unpack _). vm_compute. exact I. Qed.

Lemma filter_eqb_NoDup (b : Z) l :
  NoDup l → length (List.filter (Z.eqb b) l) ≤ 1.
Proof.
  induction 1 as [|x l Hx _ IH]; [cbn; lia|].
  cbn [List.filter]. destruct (Z.eqb_spec b x) as [->|]; [|done].
  assert (E : List.filter (Z.eqb x) l = []).
  { clear IH. induction l as [|y l IHl]; [done|].
    apply not_elem_of_cons in Hx as [D Hx]. cbn [List.filter].
    destruct (Z.eqb_spec x y); [done|]. by apply IHl. }
  rewrite E. cbn. lia.
Qed.

(** X, requests of a run.  A run sends GETs only for the bikes of
    [BIKE_IDS], three at most for each of them, so 63 at most. *)
Theorem run_gets_bounded w :
  Forall (fun b => b ∈ BIKE_IDS) (gets (main w))
  ∧ (∀ b, length (List.filter (Z.eqb b) (gets (main w))) ≤ 3)
  ∧ length (gets (main w)) ≤ 63.
Proof.
  rewrite main_gets. unfold scan.
  destruct (scan_loop_gets w (load_state (state_file w)) BIKE_IDS start_state)
    as [F L].
  split; [done|]. split; [|etrans; [exact L|]; cbn; lia].
  intros b.
  pose proof (scan_loop_gets_bike w (load_state (state_file w)) b BIKE_IDS
                start_state) as G.
  pose proof (filter_eqb_NoDup b BIKE_IDS BIKE_IDS_NoDup) as U. lia.
Qed.

(** ** Further properties: one run and the next *)

Lemma persisted_unchanged w :
  changes (main w) = [] → persisted w = load_state (state_file w).
Proof. intros C. by rewrite persisted_of_changes, C. Qed.

(** X, order.  The records notified in a run are, in the order of
    [BIKE_IDS] and of each history, the first fetched records whose key is
    not in the loaded set: none is skipped and none overtakes another. *)
Theorem notifications_in_fetch_order w :
  notified (main w)
  `prefix_of` List.filter (fresh (load_state (state_file w)))
                (fetched_records w BIKE_IDS).
Proof.
  destruct (scan_result w) as [st|e] eqn:H.
  - pose proof (notified_prefix_new w st H) as P.
    destruct (scan_result_spec w st H) as (_ & Hn & _).
    rewrite Hn in P. unfold promoted in P.
    case_bool_decide; [done|]. apply prefix_nil_inv in P. rewrite P.
    apply prefix_nil.
  - destruct (run_aborted w e H) as (P & _). unfold notified. rewrite P.
    apply prefix_nil.
Qed.

Lemma notify_all_ext w w' records :
  WEBHOOK_URL w = WEBHOOK_URL w' →
  (∀ k c, webhook w k c = webhook w' k c) →
  ∀ k, notify_all w k records = notify_all w' k records.
Proof.
  intros U Wh. induction records as [|r records IH]; intros k; [done|].
  rewrite !notify_all_cons.
  assert (P : prepared w r = prepared w' r).
  { unfold prepared, build_request. by rewrite U. }
  rewrite <- P. destruct (prepared w r) as [[b c]|e]; [|done].
  by rewrite IH, Wh.
Qed.

(** X, retries.  What a run POSTs, logs about its POSTs and writes depends
    on the network only through the value each [fetch_history] call
    returns: failed attempts before an answer change nothing, and a bike
    whose attempts all fail counts as a bike with an empty history. *)
Theorem retries_are_invisible w w' :
  WEBHOOK_URL w = WEBHOOK_URL w' →
  state_file w = state_file w' →
  (∀ k c, webhook w k c = webhook w' k c) →
  (∀ b, b ∈ BIKE_IDS → fetch_value w b = fetch_value w' b) →
  posts (main w) = posts (main w')
  ∧ delivery_log (main w) = delivery_log (main w')
  ∧ writes (main w) = writes (main w').
Proof.
  intros U F Wh V.
  assert (S : scan_result w = scan_result w').
  { unfold scan_result, scan. rewrite !scan_loop_value, F. f_equal.
    apply map_ext_in. intros b Hb. apply V. by apply list_elem_of_In. }
  destruct (scan_result w') as [st|e] eqn:H'.
  - destruct (barred st) eqn:B.
    + destruct (run_barred w st S B) as (-> & -> & -> & _).
      by destruct (run_barred w' st H' B) as (-> & -> & -> & _).
    + destruct (run_eligible w st S B) as (-> & -> & -> & _).
      destruct (run_eligible w' st H' B) as (-> & -> & -> & _).
      by rewrite (notify_all_ext w w' _ U Wh), F.
  - destruct (run_aborted w e S) as (-> & -> & -> & _).
    by destruct (run_aborted w' e H') as (-> & -> & -> & _).
Qed.

Lemma counted_is_no_history history :
  counts_as_error history = true →
  history ≠ JArr [] ∧ records_of history = [].
Proof. by destruct history as [| | | | |[|]|]. Qed.

(** X, the counter.  When the loops end normally, [fetch_errors] is the
    number of bikes whose [fetch_history] value is falsy without being the
    empty list; such a value is an answer of the API, never the result of
    three failed attempts, and carries no record. *)
Theorem fetch_errors_counts_payloads w st :
  scan_result w = Ok st →
  fetch_errors st
  = length (List.filter (fun b => counts_as_error (fetch_value w b)) BIKE_IDS)
  ∧ ∀ b, counts_as_error (fetch_value w b) = true →
         ¬ fetch_fails w b ∧ records_of (fetch_value w b) = [].
Proof.
  intros H. destruct (scan_result_spec w st H) as (_ & _ & He).
  split; [done|]. intros b C.
  destruct (counted_is_no_history _ C) as [N R]. split; [|done].
  intros F. by apply N, fetch_value_fails.
Qed.

Lemma warning_in_trace w st :
  scan_result w = Ok st → barred st = true →
  Printed WarningNotUpdating ∈ main w.
Proof.
  intros H B. unfold main. rewrite check_unfold. unfold scan_result in H.
  rewrite H, bind_Ok. unfold conclude. fold (barred st). rewrite B.
  cbn [print emit fst snd catch]. set_solver.
Qed.

(** X, the warning branch.  When the loops end with no key collected and
    at least one counted payload, the run prints the warning, POSTs
    nothing and leaves the state file as it was. *)
Theorem warning_run_changes_nothing w st :
  scan_result w = Ok st →
  current_ids st = ∅ →
  0 < fetch_errors st →
  Printed WarningNotUpdating ∈ main w
  ∧ posts (main w) = []
  ∧ writes (main w) = []
  ∧ disk_after (state_file w) (main w) = state_file w.
Proof.
  intros H C E.
  assert (B : barred st = true).
  { unfold barred. rewrite bool_decide_eq_true_2 by done.
    by apply Nat.ltb_lt. }
  destruct (run_barred w st H B) as (P & W & _ & Ch).
  repeat split; [by apply (warning_in_trace w st)|done|done|].
  unfold disk_after. by rewrite Ch.
Qed.

Lemma visit_records_not_objects last_ids records : ∀ st,
  forallb is_object records = false →
  for_each (visit_record last_ids) st records = Raise AttributeError.
Proof.
  induction records as [|r records IH]; intros st F; [done|].
  cbn [forallb] in F. cbn [for_each]. unfold visit_record at 1.
  destruct (is_object r) eqn:O.
  - destruct r as [| | | | | |fields]; try discriminate O.
    destruct (record_key_object fields) as [k ->]. cbn [rbind].
    destruct (bool_decide (k ∉ last_ids) && bool_decide (last_ids ≠ ∅));
      cbn [rbind]; by apply IH.
  - by rewrite (record_key_not_object r O).
Qed.

Lemma visit_history_malformed last_ids history st :
  counts_as_error history = false →
  is_history history = false →
  ∃ e, visit_history last_ids st history = Raise e.
Proof.
  intros C I. unfold visit_history. fold (counts_as_error history). rewrite C.
  destruct history as [|b|z|t|s|l|kv]; cbn [Py.iter rbind]; eauto.
  - destruct s as [|c s]; [discriminate C|]. cbn. eauto.
  - exists AttributeError. by apply visit_records_not_objects.
  - destruct kv as [|[k v] kv]; [discriminate C|]. cbn. eauto.
Qed.

Lemma scan_loop_malformed w last_ids bikes b :
  b ∈ bikes →
  counts_as_error (fetch_value w b) = false →
  is_history (fetch_value w b) = false →
  ∀ st, ∃ e,
    for_each (visit_history last_ids) st (map (fetch_value w) bikes) = Raise e.
Proof.
  intros In C I. induction bikes as [|b' bikes IH]; intros st.
  - by apply elem_of_nil in In.
  - cbn [map for_each].
    destruct (visit_history last_ids st (fetch_value w b')) as [st'|e] eqn:V;
      [|by exists e].
    cbn [rbind]. apply elem_of_cons in In as [->|In]; [|by apply IH].
    destruct (visit_history_malformed last_ids _ st C I) as [e E]. congruence.
Qed.

(** X, malformed payload.  When one bike answers with a value that is
    neither counted as an error nor an array of objects (an error object,
    a number, a list holding something else than objects), the [try]
    block raises: the run ends with the "Unexpected error" line, POSTs
    nothing, also for the new records of the other bikes, and leaves the
    state file as it was. *)
Theorem malformed_payload_aborts w b :
  b ∈ BIKE_IDS →
  counts_as_error (fetch_value w b) = false →
  is_history (fetch_value w b) = false →
  ∃ e,
    scan_result w = Raise e
    ∧ last (main w) = Some (Printed (UnexpectedError e))
    ∧ posts (main w) = []
    ∧ writes (main w) = []
    ∧ disk_after (state_file w) (main w) = state_file w.
Proof.
  intros In C I.
  destruct (scan_loop_malformed w (load_state (state_file w)) BIKE_IDS b
              In C I start_state) as [e E].
  assert (H : scan_result w = Raise e).
  { unfold scan_result, scan. by rewrite scan_loop_value. }
  exists e. destruct (run_aborted w e H) as (P & W & _ & Ch).
  repeat split; [done| |done|done|].
  - by apply main_last_error, check_result_aborted.
  - unfold disk_after. by rewrite Ch.
Qed.

Lemma notify_all_raise w sent record rest e : ∀ k,
  Forall (sendable w) sent →
  prepared w record = Raise e →
  snd (notify_all w k (sent ++ record :: rest)) = Raise e
  ∧ notified (fst (notify_all w k (sent ++ record :: rest))) = sent.
Proof.
  induction sent as [|r sent IH]; intros k F P.
  - cbn [app]. by rewrite notify_all_cons, P.
  - apply Forall_cons in F as [[[b c] Pr] F]. cbn [app].
    rewrite notify_all_cons, Pr. cbn [fst snd]. rewrite notified_app.
    destruct (IH (S k) F P) as [-> ->]. split; [done|].
    by destruct (webhook w k c).
Qed.

(** X, a send that raises.  When sending one of the new records raises
    before its POST, the records before it have been POSTed, the records
    after it are not, the state file is not written, and the run ends on
    the "Unexpected error" line. *)
Theorem send_raise_ends_run w st sent record rest e :
  scan_result w = Ok st →
  new_records st = sent ++ record :: rest →
  Forall (sendable w) sent →
  prepared w record = Raise e →
  notified (main w) = sent
  ∧ writes (main w) = []
  ∧ disk_after (state_file w) (main w) = state_file w
  ∧ last (main w) = Some (Printed (UnexpectedError e)).
Proof.
  intros H N F P.
  assert (B : barred st = false).
  { apply (new_record_not_barred w st H). rewrite N. by destruct sent. }
  destruct (run_eligible w st H B) as (Po & _ & W & C).
  destruct (notify_all_raise w sent record rest e 0 F P) as [R Nt].
  rewrite N, R in W, C. rewrite N in Po.
  unfold notified in *. rewrite Po, Nt.
  repeat split; [done| |].
  - unfold disk_after. by rewrite C.
  - apply main_last_error. by rewrite (check_result_eligible w st H B), N, R.
Qed.

Lemma notify_all_no_request w records : ∀ k,
  build_request w = Raise ValueError →
  posts (fst (notify_all w k records)) = []
  ∧ (records ≠ [] → ∃ e, snd (notify_all w k records) = Raise e).
Proof.
  intros k U. destruct records as [|r records]; [done|].
  rewrite notify_all_cons.
  assert (P : ∃ e, prepared w r = Raise e).
  { unfold prepared. rewrite U.
    destruct (Py.get r "bike_id" JNull); [|by eauto]. cbn [rbind].
    destruct (format_message r); by eauto. }
  destruct P as [e ->]. split; [done|]. by exists e.
Qed.

(** X, no webhook.  When the request for the webhook cannot be built
    ([DISCORD_WEBHOOK_URL] not set, or a URL that [urllib] refuses), a run
    that finds new records POSTs nothing, does not write the state file
    and ends on the "Unexpected error" line. *)
Theorem no_webhook_no_progress w st :
  build_request w = Raise ValueError →
  scan_result w = Ok st →
  new_records st ≠ [] →
  posts (main w) = []
  ∧ writes (main w) = []
  ∧ disk_after (state_file w) (main w) = state_file w
  ∧ ∃ e, last (main w) = Some (Printed (UnexpectedError e)).
Proof.
  intros U H N.
  pose proof (new_record_not_barred w st H N) as B.
  destruct (run_eligible w st H B) as (P & _ & W & C).
  destruct (notify_all_no_request w (new_records st) 0 U) as [P0 R].
  destruct (R N) as [e E]. rewrite E in W, C. rewrite P, P0.
  repeat split; [done| |].
  - unfold disk_after. by rewrite C.
  - exists e. apply main_last_error.
    by rewrite (check_result_eligible w st H B), E.
Qed.

(** Whether the loops end normally does not depend on the set loaded. *)
Lemma visit_records_any_state last_ids last_ids' records : ∀ st st' s,
  for_each (visit_record last_ids) st records = Ok s →
  ∃ s', for_each (visit_record last_ids') st' records = Ok s'.
Proof.
  induction records as [|r records IH]; intros st st' s H; [by exists st'|].
  cbn [for_each] in *.
  destruct (visit_record last_ids st r) as [st1|e] eqn:V; [|done].
  cbn [rbind] in H. unfold visit_record in V |- *.
  destruct (record_key r) as [k|e]; [|done]. cbn [rbind] in *.
  destruct (bool_decide (k ∉ last_ids') && bool_decide (last_ids' ≠ ∅));
    cbn [rbind]; by eapply IH.
Qed.

Lemma visit_history_any_state last_ids last_ids' history st st' s :
  visit_history last_ids st history = Ok s →
  ∃ s', visit_history last_ids' st' history = Ok s'.
Proof.
  unfold visit_history. destruct (_ && _); [by eauto|].
  destruct (Py.iter history) as [records|e]; [|done]. cbn [rbind].
  apply visit_records_any_state.
Qed.

Lemma scan_loop_any_state last_ids last_ids' histories : ∀ st st' s,
  for_each (visit_history last_ids) st histories = Ok s →
  ∃ s', for_each (visit_history last_ids') st' histories = Ok s'.
Proof.
  induction histories as [|h histories IH]; intros st st' s H; [by exists st'|].
  cbn [for_each] in *.
  destruct (visit_history last_ids st h) as [st1|e] eqn:V; [|done].
  destruct (visit_history_any_state last_ids last_ids' h st st' st1 V) as [s1 ->].
  cbn [rbind] in *. by eapply IH.
Qed.

(** Nothing is promoted when every fetched key is already in the set. *)
Lemma promoted_seen last_ids records :
  identities records ⊆ last_ids → promoted last_ids records = [].
Proof.
  intros Sub. unfold promoted. case_bool_decide; [|done].
  induction records as [|r records IH]; [done|].
  cbn [List.filter]. unfold fresh at 1.
  destruct (record_key r) as [k|e] eqn:K.
  - rewrite (identities_cons r k records K) in Sub.
    rewrite bool_decide_eq_false_2 by set_solver. apply IH. set_solver.
  - apply IH. unfold identities in *. cbn [omap list_omap] in Sub.
    unfold key_of at 1 in Sub. by rewrite K in Sub.
Qed.

Lemma union_absorb_r (A B : gset string) : A ∪ B ∪ B = A ∪ B.
Proof. set_solver. Qed.

(** X, running again.  After a run that wrote the state file, a following
    run that receives the same answers POSTs nothing and writes the same
    set again. *)
Theorem rerun_is_silent w :
  writes (main w) ≠ [] →
  posts (main (next_run w)) = []
  ∧ writes (main (next_run w)) = [persisted w]
  ∧ persisted (next_run w) = persisted w.
Proof.
  intros Wr.
  set (prior := load_state (state_file w)).
  set (seen := identities (fetched_records w BIKE_IDS)).
  destruct (scan_result w) as [st|e] eqn:H;
    [|destruct (run_aborted w e H) as (_ & W0 & _); by rewrite W0 in Wr].
  assert (B : barred st = false).
  { destruct (barred st) eqn:B; [|done].
    destruct (run_barred w st H B) as (_ & W0 & _). by rewrite W0 in Wr. }
  destruct (scan_result_spec w st H) as (Hc & _ & He).
  fold seen in Hc.
  destruct (run_eligible w st H B) as (_ & _ & W & C).
  unfold saved in C. fold prior in W, C. rewrite Hc in W, C.
  assert (Wt : writable seen = true
               ∧ changes (main w) = [Stored (prior ∪ seen)]).
  { rewrite W in Wr. rewrite C.
    destruct (snd (notify_all w 0 (new_records st))); [|done].
    by destruct (writable seen). }
  destruct Wt as [Wt Ch].
  assert (Pw : persisted w = prior ∪ seen) by (by rewrite persisted_of_changes, Ch).
  assert (L : load_state (state_file (next_run w)) = prior ∪ seen).
  { cbn [next_run with_state state_file]. unfold disk_after. by rewrite Ch. }
  assert (H2 : ∃ st2, scan_result (next_run w) = Ok st2).
  { unfold scan_result, scan in H |- *. rewrite scan_loop_value in H |- *.
    change (map (fetch_value (next_run w)) BIKE_IDS)
      with (map (fetch_value w) BIKE_IDS).
    eapply scan_loop_any_state, H. }
  destruct H2 as [st2 H2].
  destruct (scan_result_spec (next_run w) st2 H2) as (Hc2 & Hn2 & He2).
  change (fetched_records (next_run w) BIKE_IDS)
    with (fetched_records w BIKE_IDS) in Hc2, Hn2.
  change (fun b => counts_as_error (fetch_value (next_run w) b))
    with (fun b => counts_as_error (fetch_value w b)) in He2.
  fold seen in Hc2. rewrite L in Hn2.
  rewrite promoted_seen in Hn2 by apply union_subseteq_r.
  assert (B2 : barred st2 = false).
  { unfold barred in *. by rewrite Hc2, He2, <- Hc, <- He. }
  destruct (run_eligible (next_run w) st2 H2 B2) as (P2 & _ & W2 & C2).
  rewrite Hn2 in P2, W2, C2. cbn [notify_all ret fst snd] in P2, W2, C2.
  unfold saved in C2. rewrite L, Hc2, Wt in W2, C2.
  rewrite (union_absorb_r prior seen) in W2, C2.
  split; [done|]. rewrite Pw. split; [done|].
  by rewrite persisted_of_changes, C2.
Qed.

(** ** Further properties: the message *)

Lemma str_in_container word v :
  is_container v = true → Py.str_in word v = Ok (mentions word v).
Proof. by destruct v. Qed.

Lemma str_in_scalar word v :
  is_container v = false → Py.str_in word v = Raise TypeError.
Proof. by destruct v. Qed.

Lemma falsy_location_prints location :
  Py.truthy location = false →
  location_prints location = true ∧ link_text location = EmptyString.
Proof.
  intros T. unfold location_prints, link_text, has_coordinates. rewrite T.
  by destruct location.
Qed.

(** The message lines of [send_discord_notification] on an object. *)
Lemma format_message_object fields :
  format_message (JObj fields)
  = if printable fields then Ok (message fields) else Raise TypeError.
Proof.
  unfold format_message, printable, message. cbn [Py.get rbind].
  fold (name_entry fields). fold (entry fields "scheduled_start").
  fold (entry fields "end_date"). fold (entry fields "port").
  fold (entry fields "end_location").
  fold (is_return (entry fields "end_date")).
  generalize (name_entry fields) as name.
  generalize (entry fields "end_location") as location.
  intros location name.
  destruct (is_container name) eqn:N;
    [|by rewrite (str_in_scalar _ name N)].
  rewrite !(str_in_container _ name N). cbn [rbind andb].
  assert (C : (if mentions "子供" name then Ok true
               else Ok (mentions "チャイルド" name))
              = Ok (mentions "子供" name || mentions "チャイルド" name))
    by (by destruct (mentions "子供" name)).
  rewrite C. cbn [rbind]. clear C.
  fold (feature_tags name). fold (feature_text name).
  destruct (Py.truthy location) eqn:T.
  - destruct (is_container location) eqn:L.
    + rewrite !(str_in_container _ location L). cbn [rbind].
      assert (H : (if mentions "x" location then Ok (mentions "y" location)
                   else Ok false)
                  = Ok (has_coordinates location)).
      { unfold has_coordinates. rewrite T. by destruct (mentions "x" location). }
      rewrite H. cbn [rbind]. clear H.
      destruct (has_coordinates location) eqn:Hc.
      * unfold has_coordinates in Hc. rewrite T in Hc.
        apply andb_prop in Hc as [Hx Hy]. cbn [andb] in Hx.
        destruct location as [| | | |s|l|kv]; try discriminate L.
        -- unfold location_prints, has_coordinates. by rewrite T, Hx, Hy.
        -- unfold location_prints, has_coordinates. by rewrite T, Hx, Hy.
        -- unfold mentions in Hx, Hy. cbn [Py.str_in] in Hx, Hy.
           unfold location_prints, link_text, has_coordinates, mentions, entry.
           cbn [Py.str_in Py.index_str]. rewrite T.
           destruct (Py.assoc "x" kv); [|done].
           destruct (Py.assoc "y" kv); [|done].
           reflexivity.
      * unfold location_prints, link_text. rewrite Hc.
        by destruct location.
    + rewrite (str_in_scalar _ location L). cbn [rbind].
      unfold location_prints. rewrite T. by destruct location.
  - cbn [rbind]. by destruct (falsy_location_prints location T) as [-> ->].
Qed.

Lemma string_app_assoc (a b c : string) : (a +:+ b) +:+ c = a +:+ (b +:+ c).
Proof.
  induction a as [|x a IH]; [done|].
  change (String x ((a +:+ b) +:+ c) = String x (a +:+ (b +:+ c))).
  by f_equal.
Qed.

Lemma string_prefix_app (a b : string) : String.prefix a (a +:+ b) = true.
Proof.
  induction a as [|x a IH]; [by destruct b|].
  change (String.prefix (String x a) (String x (a +:+ b)) = true).
  cbn [String.prefix]. by destruct (ascii_dec x x).
Qed.

Lemma format_datetime_sentinel end_val :
  is_return end_val = false → format_datetime end_val = JStr "-".
Proof.
  unfold is_return, format_datetime.
  destruct (Py.truthy end_val); [|done]. cbn [andb negb orb].
  by destruct (Py.eq_str end_val "-").
Qed.

Lemma format_message_content fields content :
  format_message (JObj fields) = Ok content → content = message fields.
Proof.
  rewrite format_message_object. destruct (printable fields); [|done].
  by intros [= <-].
Qed.

(** X, when formatting raises.  The message lines raise [AttributeError]
    on a record that is not an object.  On an object they raise
    [TypeError] when [name] is [null], a boolean or a number, or when
    [end_location] is a truthy boolean or number, or a text or list that
    holds both ["x"] and ["y"]; on every other object they build the
    message, and no [KeyError] is ever raised. *)
Theorem formatting_outcome record :
  match record with
  | JObj fields =>
      if printable fields then format_message record = Ok (message fields)
      else format_message record = Raise TypeError
  | _ => format_message record = Raise AttributeError
  end.
Proof.
  destruct record as [| | | | | |fields]; try reflexivity.
  rewrite format_message_object. by destruct (printable fields).
Qed.

Lemma message_split fields :
  message fields
  = message_head fields
    +:+ "**返却:** " +:+ str (format_datetime (entry fields "end_date"))
    +:+ link_text (entry fields "end_location") +:+ nl +:+ rule.
Proof. unfold message, message_head. by rewrite !string_app_assoc. Qed.

(** X, title.  The message begins with the "returned" title when
    [end_date] is truthy and is not ["-"], and with the "rental started"
    title otherwise; in that second case its return line reads ["-"]. *)
Theorem message_title fields content :
  format_message (JObj fields) = Ok content →
  String.prefix
    (if is_return (entry fields "end_date") then title_returned
     else title_started) content = true
  ∧ (is_return (entry fields "end_date") = false →
     ∃ pre post, content = pre +:+ "**返却:** -" +:+ post).
Proof.
  intros H. apply format_message_content in H. subst content.
  split; [apply string_prefix_app|]. intros R.
  rewrite message_split, (format_datetime_sentinel _ R).
  by exists (message_head fields),
            (link_text (entry fields "end_location") +:+ nl +:+ rule).
Qed.

(** X, map link.  When [end_location] is an object with entries [x] and
    [y], the message ends with the map line, whose query lists [y] (the
    latitude) before [x], and the closing rule. *)
Theorem map_link_latitude_first fields kv lat lon content :
  entry fields "end_location" = JObj kv →
  Py.assoc "y" kv = Some lat →
  Py.assoc "x" kv = Some lon →
  format_message (JObj fields) = Ok content →
  ∃ pre, content = pre +:+ map_link lat lon +:+ nl +:+ rule.
Proof.
  intros L Y X H. apply format_message_content in H. subst content.
  rewrite message_split, L. unfold link_text, has_coordinates, mentions, entry.
  cbn [Py.str_in]. rewrite X, Y.
  assert (T : Py.truthy (JObj kv) = true) by (by destruct kv).
  rewrite T. cbn [andb].
  exists (message_head fields +:+ "**返却:** "
          +:+ str (format_datetime
                     match Py.assoc "end_date" fields with
                     | Some v => v
                     | None => JNull
                     end)).
  by rewrite !string_app_assoc.
Qed.

(** X, no map link.  When [end_location] is absent or falsy, or lacks
    ["x"] or ["y"], the return line is followed at once by the closing
    rule: the message has no map line. *)
Theorem no_map_link_without_coordinates fields content :
  has_coordinates (entry fields "end_location") = false →
  format_message (JObj fields) = Ok content →
  ∃ pre,
    content
    = pre +:+ "**返却:** " +:+ str (format_datetime (entry fields "end_date"))
      +:+ nl +:+ rule.
Proof.
  intros C H. apply format_message_content in H. subst content.
  rewrite message_split.
  assert (L : link_text (entry fields "end_location") = EmptyString).
  { unfold link_text. rewrite C. by destruct (entry fields "end_location"). }
  rewrite L. by exists (message_head fields).
Qed.

(** ** Further properties: timestamps, keys and the setup line *)

Lemma remove_Z_app (a b : string) :
  Py.remove_Z (a +:+ b) = Py.remove_Z a +:+ Py.remove_Z b.
Proof.
  induction a as [|c a IH]; [done|].
  change (Py.remove_Z (String c (a +:+ b))
          = Py.remove_Z (String c a) +:+ Py.remove_Z b).
  cbn [Py.remove_Z]. rewrite IH. by destruct (Ascii.eqb c "Z").
Qed.

(** X, the UTC marker.  A timestamp that converts is shown the same with
    and without a trailing [Z]: the marker is dropped before parsing and
    the nine hours are added in both cases. *)
Theorem format_datetime_ignores_Z s shown :
  s ≠ EmptyString →
  s ≠ "-" →
  to_jst (Py.remove_Z s) = Some shown →
  format_datetime (JStr s) = JStr shown
  ∧ format_datetime (JStr (s +:+ "Z")) = JStr shown.
Proof.
  intros E D T. unfold format_datetime. cbn [Py.truthy Py.eq_str].
  apply String.eqb_neq in E, D. rewrite E, D. cbn [negb orb]. rewrite T.
  split; [done|].
  assert (E' : String.eqb (s +:+ "Z") EmptyString = false).
  { apply String.eqb_neq. by destruct s. }
  assert (D' : String.eqb (s +:+ "Z") "-" = false).
  { apply String.eqb_neq. destruct s as [|c [|c' s]]; [done| |]; discriminate. }
  rewrite E', D'. cbn [negb orb]. rewrite remove_Z_app.
  change (Py.remove_Z "Z") with EmptyString.
  assert (R : ∀ x : string, x +:+ EmptyString = x).
  { intros x. induction x as [|c x IH]; [done|].
    change (String c (x +:+ EmptyString) = String c x). by f_equal. }
  by rewrite R, T.
Qed.

Lemma contains_separator_cons c s :
  Py.contains "_" (String c s) = false →
  c ≠ "_"%char ∧ Py.contains "_" s = false.
Proof.
  cbn [Py.contains String.prefix]. destruct (ascii_dec "_" c) as [<-|N].
  - by destruct s.
  - cbn [orb]. intros H. split; [congruence|done].
Qed.

Lemma split_at_separator (a : string) : ∀ b x y : string,
  Py.contains "_" a = false →
  Py.contains "_" b = false →
  a +:+ "_" +:+ x = b +:+ "_" +:+ y →
  a = b ∧ x = y.
Proof.
  induction a as [|c a IH]; intros [|d b] x y Ha Hb E.
  - by injection E.
  - apply contains_separator_cons in Hb as [N _].
    change (String "_" x = String d (b +:+ "_" +:+ y)) in E. congruence.
  - apply contains_separator_cons in Ha as [N _].
    change (String c (a +:+ "_" +:+ x) = String "_" y) in E. congruence.
  - apply contains_separator_cons in Ha as [_ Ha].
    apply contains_separator_cons in Hb as [_ Hb].
    change (String c (a +:+ "_" +:+ x) = String d (b +:+ "_" +:+ y)) in E.
    injection E as -> E. by destruct (IH b x y Ha Hb E) as [-> ->].
Qed.

Lemma record_key_entries fields :
  record_key (JObj fields)
  = Ok (str (entry fields "bike_id") +:+ "_"
        +:+ str (entry fields "scheduled_start") +:+ "_"
        +:+ str (entry fields "end_date")).
Proof. reflexivity. Qed.

(** X, keys apart.  When the printed [bike_id] and [scheduled_start] of
    two records hold no underscore, as numbers and ISO timestamps do, the
    records have the same key only if their three key entries print the
    same. *)
Theorem record_key_injective_without_separator fields1 fields2 :
  Py.contains "_" (str (entry fields1 "bike_id")) = false →
  Py.contains "_" (str (entry fields2 "bike_id")) = false →
  Py.contains "_" (str (entry fields1 "scheduled_start")) = false →
  Py.contains "_" (str (entry fields2 "scheduled_start")) = false →
  record_key (JObj fields1) = record_key (JObj fields2) →
  str (entry fields1 "bike_id") = str (entry fields2 "bike_id")
  ∧ str (entry fields1 "scheduled_start") = str (entry fields2 "scheduled_start")
  ∧ str (entry fields1 "end_date") = str (entry fields2 "end_date").
Proof.
  intros B1 B2 S1 S2. rewrite !record_key_entries. intros [= E].
  apply split_at_separator in E as [Eb E]; [|done|done].
  apply split_at_separator in E as [Es Ee]; done.
Qed.

(** X, the return is a new identity.  Two records with the same printed
    [bike_id] and [scheduled_start] whose [end_date] prints differently,
    as ["-"] and the time of return do, have different keys. *)
Theorem return_changes_key fields1 fields2 :
  str (entry fields1 "bike_id") = str (entry fields2 "bike_id") →
  str (entry fields1 "scheduled_start") = str (entry fields2 "scheduled_start") →
  str (entry fields1 "end_date") ≠ str (entry fields2 "end_date") →
  record_key (JObj fields1) ≠ record_key (JObj fields2).
Proof.
  intros B S E. rewrite !record_key_entries, B, S. intros [= K].
  apply E. by repeat apply (inj (String.append _)) in K.
Qed.

Lemma substring_split n : ∀ url,
  n < String.length url →
  ∃ p s, url = p +:+ s ∧ String.length p = n ∧ s ≠ EmptyString
         ∧ String.substring 0 n url = p.
Proof.
  induction n as [|n IH]; intros [|c u] L; cbn [String.length] in L; try lia.
  - by exists EmptyString, (String c u).
  - destruct (IH u) as (p & s & -> & Lp & Ns & Sp); [lia|].
    exists (String c p), s. cbn [String.substring String.length].
    by rewrite Sp, Lp.
Qed.

(** X, the masked URL.  Of a webhook URL longer than 30 characters the
    setup line shows the first 30 followed by three dots, whatever
    follows them; of a shorter URL it shows nothing but "Too Short". *)
Theorem masked_url_cases url :
  String.length url ≤ 30 ∧ masked_url url = "Too Short"
  ∨ ∃ p s, url = p +:+ s ∧ String.length p = 30 ∧ s ≠ EmptyString
           ∧ masked_url url = p +:+ "...".
Proof.
  unfold masked_url. destruct (30 <? String.length url) eqn:L.
  - apply Nat.ltb_lt in L. right.
    destruct (substring_split 30 url L) as (p & s & E & Lp & Ns & Sp).
    exists p, s. by rewrite Sp.
  - apply Nat.ltb_ge in L. by left.
Qed.

End Monitor.

(** ** The claims on sample runs *)


Lemma failed_fetch_not_counted_witness :
  fetch_fails world_down 3592
  ∧ snd (fetch_history world_down 3592) = Ok (JArr [])
  ∧ counts_as_error (JArr []) = false
  ∧ snd (visit_bike sample_repr world_down {[ key_a ]} start_state 3592)
    = Ok start_state.
Proof.
  assert (F : fetch_fails world_down 3592) by (intros attempt _; reflexivity).
  split; [exact F|].
  exact (failed_fetch_not_counted sample_repr world_down {[ key_a ]} start_state 3592 F).
Defined.

(** C3 as stated fails: two fetched records with the key [key_b] are both
    notified in one run. *)
Lemma same_key_notified_twice :
  count_key sample_repr key_b
    (notified (main sample_repr sample_jst sample_url_check world_twice)) = 2
  ∧ ¬ count_key sample_repr key_b
        (notified (main sample_repr sample_jst sample_url_check world_twice)) ≤ 1.
Proof. split; [reflexivity|]. vm_compute. lia. Qed.

Lemma cold_start_silence_witness :
  load_state (state_file world_cold) = ∅
  ∧ scan_result sample_repr world_cold = Ok state_cold
  ∧ fetch_errors state_cold = 0
  ∧ notified (main sample_repr sample_jst sample_url_check world_cold) = []
  ∧ writable (identities sample_repr (fetched_records world_cold BIKE_IDS)) = true
  ∧ writes (main sample_repr sample_jst sample_url_check world_cold)
    = [identities sample_repr (fetched_records world_cold BIKE_IDS)]
  ∧ persisted sample_repr sample_jst sample_url_check world_cold
    = identities sample_repr (fetched_records world_cold BIKE_IDS).
Proof.
  assert (L : load_state (state_file world_cold) = ∅) by reflexivity.
  assert (H : scan_result sample_repr world_cold = Ok state_cold) by reflexivity.
  assert (E : fetch_errors state_cold = 0) by reflexivity.
  assert (W : writable (identities sample_repr (fetched_records world_cold BIKE_IDS))
              = true) by reflexivity.
  split; [exact L|]. split; [exact H|]. split; [exact E|].
  pose proof (cold_start_silence sample_repr sample_jst sample_url_check
                world_cold state_cold L H E) as [N S].
  rewrite W in S. split; [exact N|]. split; [exact W|]. exact S.
Defined.

(** C4 as stated fails: on a first run that fetches a record whose start
    is a lone surrogate, no fetch error is counted, nothing is POSTed, and
    the set a following run loads is empty, not the set of the two keys
    fetched: the write raised with the file emptied. *)
Lemma cold_start_keys_not_stored :
  load_state (state_file world_cold_surrogate) = ∅
  ∧ scan_result sample_repr world_cold_surrogate = Ok state_cold_surrogate
  ∧ fetch_errors state_cold_surrogate = 0
  ∧ notified (main sample_repr sample_jst sample_url_check world_cold_surrogate)
    = []
  ∧ identities sample_repr (fetched_records world_cold_surrogate BIKE_IDS)
    = {[ key_a ]} ∪ {[ key_s ]}
  ∧ disk_after (state_file world_cold_surrogate)
      (main sample_repr sample_jst sample_url_check world_cold_surrogate)
    = Unreadable
  ∧ last (main sample_repr sample_jst sample_url_check world_cold_surrogate)
    = Some (Printed (UnexpectedError UnicodeEncodeError))
  ∧ persisted sample_repr sample_jst sample_url_check world_cold_surrogate
    ≠ identities sample_repr (fetched_records world_cold_surrogate BIKE_IDS).
Proof.
  repeat split.
  change (persisted sample_repr sample_jst sample_url_check world_cold_surrogate)
    with (∅ : gset string).
  change (identities sample_repr (fetched_records world_cold_surrogate BIKE_IDS))
    with ({[ key_a ]} ∪ {[ key_s ]} : gset string).
  intros E. apply (not_elem_of_empty (C:=gset string) key_a).
  rewrite E. apply elem_of_union_l. by apply elem_of_singleton.
Qed.

(** C5 as stated fails: the prior set is not empty, the fetched records
    have the keys of the prior set and one more, and two notifications are
    POSTed. *)
Lemma one_new_identity_two_notifications :
  load_state (state_file world_twice) ≠ ∅
  ∧ scan_result sample_repr world_twice = Ok state_twice
  ∧ current_ids state_twice = load_state (state_file world_twice) ∪ {[ key_b ]}
  ∧ (key_b ∉ load_state (state_file world_twice))
  ∧ notified (main sample_repr sample_jst sample_url_check world_twice)
    = [record_b; record_b'].
Proof. repeat split; [done | set_solver]. Qed.

Lemma incremental_detection_witness :
  load_state (state_file world_new) ≠ ∅
  ∧ scan_result sample_repr world_new = Ok state_new
  ∧ current_ids state_new = load_state (state_file world_new) ∪ {[ key_b ]}
  ∧ (key_b ∉ load_state (state_file world_new))
  ∧ Forall (sendable sample_repr sample_jst sample_url_check world_new)
      (List.filter (has_key sample_repr key_b) (fetched_records world_new BIKE_IDS))
  ∧ notified (main sample_repr sample_jst sample_url_check world_new)
    = List.filter (has_key sample_repr key_b) (fetched_records world_new BIKE_IDS)
  ∧ length (notified (main sample_repr sample_jst sample_url_check world_new))
    = count_key sample_repr key_b (fetched_records world_new BIKE_IDS)
  ∧ writable (load_state (state_file world_new) ∪ {[ key_b ]}) = true
  ∧ persisted sample_repr sample_jst sample_url_check world_new
    = load_state (state_file world_new) ∪ {[ key_b ]}.
Proof.
  assert (N : load_state (state_file world_new) ≠ ∅) by done.
  assert (H : scan_result sample_repr world_new = Ok state_new) by reflexivity.
  assert (C : current_ids state_new
              = load_state (state_file world_new) ∪ {[ key_b ]}) by reflexivity.
  assert (X : key_b ∉ load_state (state_file world_new)).
  { change (key_b ∉ ({[ key_a ]} : gset string)).
    intros In. apply elem_of_singleton in In. discriminate In. }
  assert (F : Forall (sendable sample_repr sample_jst sample_url_check world_new)
                (List.filter (has_key sample_repr key_b)
                   (fetched_records world_new BIKE_IDS))).
  { apply Forall_cons. split; [|apply Forall_nil_2].
    eexists. reflexivity. }
  assert (W : writable (load_state (state_file world_new) ∪ {[ key_b ]}) = true)
    by reflexivity.
  split; [exact N|]. split; [exact H|]. split; [exact C|]. split; [exact X|].
  split; [exact F|].
  pose proof (incremental_detection sample_repr sample_jst sample_url_check
                world_new state_new key_b N H C X F) as (Nt & Ln & P).
  rewrite W in P.
  split; [exact Nt|]. split; [exact Ln|]. split; [exact W|]. exact P.
Defined.



Lemma request_failure_aborts_batch_witness :
  scan_result sample_repr world_pair_no_webhook = Ok state_pair
  ∧ new_records state_pair ≠ []
  ∧ Forall (formats sample_repr sample_jst) (new_records state_pair)
  ∧ build_request sample_url_check world_pair_no_webhook = Raise ValueError
  ∧ notified (main sample_repr sample_jst sample_url_check world_pair_no_webhook)
    = []
  ∧ delivery_log
      (main sample_repr sample_jst sample_url_check world_pair_no_webhook) = []
  ∧ changes (main sample_repr sample_jst sample_url_check world_pair_no_webhook)
    = []
  ∧ persisted sample_repr sample_jst sample_url_check world_pair_no_webhook
    = load_state (state_file world_pair_no_webhook)
  ∧ last (main sample_repr sample_jst sample_url_check world_pair_no_webhook)
    = Some (Printed (UnexpectedError ValueError))
  ∧ build_request sample_url_check world_pair_refused = Ok tt
  ∧ notified (main sample_repr sample_jst sample_url_check world_pair_refused)
    = [record_b; record_c]
  ∧ delivery_log (main sample_repr sample_jst sample_url_check world_pair_refused)
    = [false; true]
  ∧ changes (main sample_repr sample_jst sample_url_check world_pair_refused)
    = [Stored ({[ key_a ]} ∪ ({[ key_b ]} ∪ {[ key_c ]}))]
  ∧ ∀ h, persisted sample_repr sample_jst sample_url_check
           (with_webhook world_pair_refused h)
         = persisted sample_repr sample_jst sample_url_check world_pair_refused.
Proof.
  assert (H : scan_result sample_repr world_pair_no_webhook = Ok state_pair)
    by reflexivity.
  assert (H' : scan_result sample_repr world_pair_refused = Ok state_pair)
    by reflexivity.
  assert (N : new_records state_pair ≠ []) by discriminate.
  assert (F : Forall (formats sample_repr sample_jst) (new_records state_pair)).
  { repeat (apply Forall_cons; split; [eexists; reflexivity|]). apply Forall_nil_2. }
  assert (T : notified (main sample_repr sample_jst sample_url_check
                           world_pair_no_webhook) = []
              ∧ delivery_log (main sample_repr sample_jst sample_url_check
                                world_pair_no_webhook) = []
              ∧ changes (main sample_repr sample_jst sample_url_check
                           world_pair_no_webhook) = []
              ∧ persisted sample_repr sample_jst sample_url_check
                  world_pair_no_webhook
                = load_state (state_file world_pair_no_webhook)
              ∧ last (main sample_repr sample_jst sample_url_check
                        world_pair_no_webhook)
                = Some (Printed (UnexpectedError ValueError)))
    by exact (request_failure_aborts_batch sample_repr sample_jst
                sample_url_check world_pair_no_webhook state_pair H N F).
  destruct T as (T1 & T2 & T3 & T4 & T5).
  split; [exact H|]. split; [exact N|]. split; [exact F|].
  split; [reflexivity|].
  split; [exact T1|]. split; [exact T2|]. split; [exact T3|].
  split; [exact T4|]. split; [exact T5|]. split; [reflexivity|].
  exact (request_failure_aborts_batch sample_repr sample_jst sample_url_check
           world_pair_refused state_pair H' N F).
Defined.

Lemma identity_determinism_witness :
  Py.get (JObj fields_b) "bike_id" JNull = Py.get (JObj fields_b') "bike_id" JNull
  ∧ Py.get (JObj fields_b) "scheduled_start" JNull
    = Py.get (JObj fields_b') "scheduled_start" JNull
  ∧ Py.get (JObj fields_b) "end_date" JNull = Py.get (JObj fields_b') "end_date" JNull
  ∧ record_key sample_repr (JObj fields_b) = record_key sample_repr (JObj fields_b')
  ∧ ∃ k, record_key sample_repr (JObj fields_b) = Ok k.
Proof.
  split; [reflexivity|]. split; [reflexivity|]. split; [reflexivity|].
  exact (identity_determinism sample_repr fields_b fields_b'
           eq_refl eq_refl eq_refl).
Defined.

Lemma never_renotify_seen_witness :
  record_b ∈ notified (main sample_repr sample_jst sample_url_check world_new)
  ∧ ∃ k, record_key sample_repr record_b = Ok k
         ∧ k ∉ load_state (state_file world_new).
Proof.
  assert (In : record_b
               ∈ notified (main sample_repr sample_jst sample_url_check world_new)).
  { change (record_b ∈ [record_b]). apply list_elem_of_here. }
  split; [exact In|].
  exact (never_renotify_seen sample_repr sample_jst sample_url_check
           world_new record_b In).
Defined.


(** A new record that the formatter cannot print ends the run in the
    [except] branch of [main]: no POST, no write, and the set a following
    run loads is the old one, so the record is met as new again. *)
Lemma unprintable_record_aborts_run :
  last (main sample_repr sample_jst sample_url_check world_null_name)
  = Some (Printed (UnexpectedError TypeError))
  ∧ posts (main sample_repr sample_jst sample_url_check world_null_name) = []
  ∧ writes (main sample_repr sample_jst sample_url_check world_null_name) = []
  ∧ persisted sample_repr sample_jst sample_url_check world_null_name
    = {[ key_a ]}.
Proof. repeat split. Qed.

(** ** The further properties on sample runs *)

Lemma sample_bike_listed : (3593 ∈ BIKE_IDS)%Z.
Proof. right. left. Qed.

Lemma fetch_history_first_answer_witness :
  2 < 3
  ∧ (∀ a, a < 2 → api world_slow 3593 a = None)
  ∧ api world_slow 3593 2 = Some (JArr [record_b])
  ∧ snd (fetch_history world_slow 3593) = Ok (JArr [record_b])
  ∧ gets (fst (fetch_history world_slow 3593)) = replicate 3 3593%Z
  ∧ fetch_error_lines (fst (fetch_history world_slow 3593))
    = (fun a => (3593%Z, S a)) <$> seq 0 2
  ∧ sleeps (fst (fetch_history world_slow 3593)) = 2.
Proof.
  assert (K : 2 < 3) by lia.
  assert (F : ∀ a, a < 2 → api world_slow 3593 a = None).
  { intros [|[|a]] L; [reflexivity|reflexivity|lia]. }
  assert (A : api world_slow 3593 2 = Some (JArr [record_b])) by reflexivity.
  split; [exact K|]. split; [exact F|]. split; [exact A|].
  exact (fetch_history_first_answer world_slow 3593 2 (JArr [record_b]) K F A).
Defined.

Lemma retries_are_invisible_witness :
  WEBHOOK_URL world_slow = WEBHOOK_URL world_new
  ∧ state_file world_slow = state_file world_new
  ∧ (∀ k c, webhook world_slow k c = webhook world_new k c)
  ∧ (∀ b, b ∈ BIKE_IDS → fetch_value world_slow b = fetch_value world_new b)
  ∧ posts (main sample_repr sample_jst sample_url_check world_slow)
    = posts (main sample_repr sample_jst sample_url_check world_new)
  ∧ delivery_log (main sample_repr sample_jst sample_url_check world_slow)
    = delivery_log (main sample_repr sample_jst sample_url_check world_new)
  ∧ writes (main sample_repr sample_jst sample_url_check world_slow)
    = writes (main sample_repr sample_jst sample_url_check world_new).
Proof.
  assert (U : WEBHOOK_URL world_slow = WEBHOOK_URL world_new) by reflexivity.
  assert (F : state_file world_slow = state_file world_new) by reflexivity.
  assert (Wh : ∀ k c, webhook world_slow k c = webhook world_new k c)
    by reflexivity.
  assert (V : ∀ b, b ∈ BIKE_IDS → fetch_value world_slow b = fetch_value world_new b).
  { intros b Hb. unfold BIKE_IDS in Hb.
    repeat (apply elem_of_cons in Hb as [->|Hb]; [reflexivity|]).
    by apply elem_of_nil in Hb. }
  split; [exact U|]. split; [exact F|]. split; [exact Wh|]. split; [exact V|].
  exact (retries_are_invisible sample_repr sample_jst sample_url_check
           world_slow world_new U F Wh V).
Defined.

Lemma fetch_errors_counts_payloads_witness :
  scan_result sample_repr world_null_payload = Ok state_null_payload
  ∧ fetch_errors state_null_payload
    = length (List.filter
                (fun b => counts_as_error (fetch_value world_null_payload b))
                BIKE_IDS)
  ∧ ∀ b, counts_as_error (fetch_value world_null_payload b) = true →
         ¬ fetch_fails world_null_payload b
         ∧ records_of (fetch_value world_null_payload b) = [].
Proof.
  assert (H : scan_result sample_repr world_null_payload = Ok state_null_payload)
    by reflexivity.
  split; [exact H|].
  exact (fetch_errors_counts_payloads sample_repr sample_jst sample_url_check
           world_null_payload state_null_payload H).
Defined.

Lemma warning_run_changes_nothing_witness :
  scan_result sample_repr world_null_payload = Ok state_null_payload
  ∧ current_ids state_null_payload = ∅
  ∧ 0 < fetch_errors state_null_payload
  ∧ Printed WarningNotUpdating
    ∈ main sample_repr sample_jst sample_url_check world_null_payload
  ∧ posts (main sample_repr sample_jst sample_url_check world_null_payload) = []
  ∧ writes (main sample_repr sample_jst sample_url_check world_null_payload) = []
  ∧ disk_after (state_file world_null_payload)
      (main sample_repr sample_jst sample_url_check world_null_payload)
    = state_file world_null_payload.
Proof.
  assert (H : scan_result sample_repr world_null_payload = Ok state_null_payload)
    by reflexivity.
  assert (C : current_ids state_null_payload = ∅) by reflexivity.
  assert (E : 0 < fetch_errors state_null_payload) by (cbn; lia).
  split; [exact H|]. split; [exact C|]. split; [exact E|].
  exact (warning_run_changes_nothing sample_repr sample_jst sample_url_check
           world_null_payload state_null_payload H C E).
Defined.

Lemma malformed_payload_aborts_witness :
  (3593 ∈ BIKE_IDS)%Z
  ∧ counts_as_error (fetch_value world_error_object 3593) = false
  ∧ is_history (fetch_value world_error_object 3593) = false
  ∧ ∃ e,
      scan_result sample_repr world_error_object = Raise e
      ∧ last (main sample_repr sample_jst sample_url_check world_error_object)
        = Some (Printed (UnexpectedError e))
      ∧ posts (main sample_repr sample_jst sample_url_check world_error_object) = []
      ∧ writes (main sample_repr sample_jst sample_url_check world_error_object) = []
      ∧ disk_after (state_file world_error_object)
          (main sample_repr sample_jst sample_url_check world_error_object)
        = state_file world_error_object.
Proof.
  assert (C : counts_as_error (fetch_value world_error_object 3593) = false)
    by reflexivity.
  assert (I : is_history (fetch_value world_error_object 3593) = false)
    by reflexivity.
  split; [exact sample_bike_listed|]. split; [exact C|]. split; [exact I|].
  exact (malformed_payload_aborts sample_repr sample_jst sample_url_check
           world_error_object 3593 sample_bike_listed C I).
Defined.

Lemma send_raise_ends_run_witness :
  scan_result sample_repr world_mid_batch = Ok state_mid_batch
  ∧ new_records state_mid_batch = [record_b] ++ record_null_name :: []
  ∧ Forall (sendable sample_repr sample_jst sample_url_check world_mid_batch)
      [record_b]
  ∧ prepared sample_repr sample_jst sample_url_check world_mid_batch
      record_null_name = Raise TypeError
  ∧ notified (main sample_repr sample_jst sample_url_check world_mid_batch)
    = [record_b]
  ∧ writes (main sample_repr sample_jst sample_url_check world_mid_batch) = []
  ∧ disk_after (state_file world_mid_batch)
      (main sample_repr sample_jst sample_url_check world_mid_batch)
    = state_file world_mid_batch
  ∧ last (main sample_repr sample_jst sample_url_check world_mid_batch)
    = Some (Printed (UnexpectedError TypeError)).
Proof.
  assert (H : scan_result sample_repr world_mid_batch = Ok state_mid_batch)
    by reflexivity.
  assert (N : new_records state_mid_batch = [record_b] ++ record_null_name :: [])
    by reflexivity.
  assert (F : Forall (sendable sample_repr sample_jst sample_url_check
                        world_mid_batch) [record_b]).
  { apply Forall_cons. split; [|apply Forall_nil_2]. eexists. reflexivity. }
  assert (P : prepared sample_repr sample_jst sample_url_check world_mid_batch
                record_null_name = Raise TypeError) by reflexivity.
  split; [exact H|]. split; [exact N|]. split; [exact F|]. split; [exact P|].
  exact (send_raise_ends_run sample_repr sample_jst sample_url_check
           world_mid_batch state_mid_batch [record_b] record_null_name []
           TypeError H N F P).
Defined.

Lemma no_webhook_no_progress_witness :
  build_request sample_url_check world_no_webhook = Raise ValueError
  ∧ scan_result sample_repr world_no_webhook = Ok state_new
  ∧ new_records state_new ≠ []
  ∧ posts (main sample_repr sample_jst sample_url_check world_no_webhook) = []
  ∧ writes (main sample_repr sample_jst sample_url_check world_no_webhook) = []
  ∧ disk_after (state_file world_no_webhook)
      (main sample_repr sample_jst sample_url_check world_no_webhook)
    = state_file world_no_webhook
  ∧ ∃ e, last (main sample_repr sample_jst sample_url_check world_no_webhook)
         = Some (Printed (UnexpectedError e)).
Proof.
  assert (U : build_request sample_url_check world_no_webhook = Raise ValueError)
    by reflexivity.
  assert (H : scan_result sample_repr world_no_webhook = Ok state_new)
    by reflexivity.
  assert (N : new_records state_new ≠ []) by discriminate.
  split; [exact U|]. split; [exact H|]. split; [exact N|].
  exact (no_webhook_no_progress sample_repr sample_jst sample_url_check
           world_no_webhook state_new U H N).
Defined.

Lemma rerun_is_silent_witness :
  writes (main sample_repr sample_jst sample_url_check world_new) ≠ []
  ∧ posts (main sample_repr sample_jst sample_url_check
             (next_run sample_repr sample_jst sample_url_check world_new)) = []
  ∧ writes (main sample_repr sample_jst sample_url_check
              (next_run sample_repr sample_jst sample_url_check world_new))
    = [persisted sample_repr sample_jst sample_url_check world_new]
  ∧ persisted sample_repr sample_jst sample_url_check
      (next_run sample_repr sample_jst sample_url_check world_new)
    = persisted sample_repr sample_jst sample_url_check world_new.
Proof.
  assert (W : writes (main sample_repr sample_jst sample_url_check world_new) ≠ []).
  { change (writes (main sample_repr sample_jst sample_url_check world_new))
      with [load_state (state_file world_new) ∪ current_ids state_new].
    discriminate. }
  split; [exact W|].
  exact (rerun_is_silent sample_repr sample_jst sample_url_check world_new W).
Defined.

Lemma message_title_witness :
  format_message sample_repr sample_jst (JObj fields_b)
  = Ok (message sample_repr sample_jst fields_b)
  ∧ String.prefix
      (if is_return (entry fields_b "end_date") then title_returned
       else title_started) (message sample_repr sample_jst fields_b) = true
  ∧ (is_return (entry fields_b "end_date") = false →
     ∃ pre post,
       message sample_repr sample_jst fields_b = pre +:+ "**返却:** -" +:+ post).
Proof.
  assert (H : format_message sample_repr sample_jst (JObj fields_b)
              = Ok (message sample_repr sample_jst fields_b)) by reflexivity.
  split; [exact H|].
  exact (message_title sample_repr sample_jst fields_b _ H).
Defined.

Lemma map_link_latitude_first_witness :
  entry fields_b' "end_location"
  = JObj [("x", JFloat "139.7"); ("y", JFloat "35.6")]
  ∧ Py.assoc "y" [("x", JFloat "139.7"); ("y", JFloat "35.6")]
    = Some (JFloat "35.6")
  ∧ Py.assoc "x" [("x", JFloat "139.7"); ("y", JFloat "35.6")]
    = Some (JFloat "139.7")
  ∧ format_message sample_repr sample_jst (JObj fields_b')
    = Ok (message sample_repr sample_jst fields_b')
  ∧ ∃ pre,
      message sample_repr sample_jst fields_b'
      = pre +:+ map_link sample_repr (JFloat "35.6") (JFloat "139.7")
        +:+ nl +:+ rule.
Proof.
  assert (H : format_message sample_repr sample_jst (JObj fields_b')
              = Ok (message sample_repr sample_jst fields_b')) by reflexivity.
  split; [reflexivity|]. split; [reflexivity|]. split; [reflexivity|].
  split; [exact H|].
  exact (map_link_latitude_first sample_repr sample_jst fields_b'
           [("x", JFloat "139.7"); ("y", JFloat "35.6")]
           (JFloat "35.6") (JFloat "139.7") _ eq_refl eq_refl eq_refl H).
Defined.

Lemma no_map_link_without_coordinates_witness :
  has_coordinates (entry fields_b "end_location") = false
  ∧ format_message sample_repr sample_jst (JObj fields_b)
    = Ok (message sample_repr sample_jst fields_b)
  ∧ ∃ pre,
      message sample_repr sample_jst fields_b
      = pre +:+ "**返却:** "
        +:+ Py.str sample_repr (format_datetime sample_jst (entry fields_b "end_date"))
        +:+ nl +:+ rule.
Proof.
  assert (C : has_coordinates (entry fields_b "end_location") = false)
    by reflexivity.
  assert (H : format_message sample_repr sample_jst (JObj fields_b)
              = Ok (message sample_repr sample_jst fields_b)) by reflexivity.
  split; [exact C|]. split; [exact H|].
  exact (no_map_link_without_coordinates sample_repr sample_jst fields_b _ C H).
Defined.

Lemma record_key_injective_without_separator_witness :
  Py.contains "_" (Py.str sample_repr (entry fields_b "bike_id")) = false
  ∧ Py.contains "_" (Py.str sample_repr (entry fields_b' "bike_id")) = false
  ∧ Py.contains "_" (Py.str sample_repr (entry fields_b "scheduled_start")) = false
  ∧ Py.contains "_" (Py.str sample_repr (entry fields_b' "scheduled_start")) = false
  ∧ record_key sample_repr (JObj fields_b) = record_key sample_repr (JObj fields_b')
  ∧ Py.str sample_repr (entry fields_b "bike_id")
    = Py.str sample_repr (entry fields_b' "bike_id")
  ∧ Py.str sample_repr (entry fields_b "scheduled_start")
    = Py.str sample_repr (entry fields_b' "scheduled_start")
  ∧ Py.str sample_repr (entry fields_b "end_date")
    = Py.str sample_repr (entry fields_b' "end_date").
Proof.
  split; [reflexivity|]. split; [reflexivity|]. split; [reflexivity|].
  split; [reflexivity|]. split; [reflexivity|].
  exact (record_key_injective_without_separator sample_repr fields_b fields_b'
           eq_refl eq_refl eq_refl eq_refl eq_refl).
Defined.

Lemma return_changes_key_witness :
  Py.str sample_repr (entry fields_b "bike_id")
  = Py.str sample_repr (entry (("end_date", JStr "2024-01-01T12:00:00.000Z") :: fields_b) "bike_id")
  ∧ Py.str sample_repr (entry fields_b "scheduled_start")
    = Py.str sample_repr
        (entry (("end_date", JStr "2024-01-01T12:00:00.000Z") :: fields_b)
           "scheduled_start")
  ∧ Py.str sample_repr (entry fields_b "end_date")
    ≠ Py.str sample_repr
        (entry (("end_date", JStr "2024-01-01T12:00:00.000Z") :: fields_b)
           "end_date")
  ∧ record_key sample_repr (JObj fields_b)
    ≠ record_key sample_repr
        (JObj (("end_date", JStr "2024-01-01T12:00:00.000Z") :: fields_b)).
Proof.
  assert (E : Py.str sample_repr (entry fields_b "end_date")
              ≠ Py.str sample_repr
                  (entry (("end_date", JStr "2024-01-01T12:00:00.000Z") :: fields_b)
                     "end_date")) by discriminate.
  split; [reflexivity|]. split; [reflexivity|]. split; [exact E|].
  exact (return_changes_key sample_repr fields_b
           (("end_date", JStr "2024-01-01T12:00:00.000Z") :: fields_b)
           eq_refl eq_refl E).
Defined.

Lemma format_datetime_ignores_Z_witness :
  "2024-01-01T03:00:00.000" ≠ EmptyString
  ∧ "2024-01-01T03:00:00.000" ≠ "-"
  ∧ sample_jst_noon (Py.remove_Z "2024-01-01T03:00:00.000") = Some "2024/01/01 12:00"
  ∧ format_datetime sample_jst_noon (JStr "2024-01-01T03:00:00.000")
    = JStr "2024/01/01 12:00"
  ∧ format_datetime sample_jst_noon (JStr ("2024-01-01T03:00:00.000" +:+ "Z"))
    = JStr "2024/01/01 12:00".
Proof.
  assert (E : "2024-01-01T03:00:00.000" ≠ EmptyString) by discriminate.
  assert (D : "2024-01-01T03:00:00.000" ≠ "-") by discriminate.
  assert (T : sample_jst_noon (Py.remove_Z "2024-01-01T03:00:00.000")
              = Some "2024/01/01 12:00") by reflexivity.
  split; [exact E|]. split; [exact D|]. split; [exact T|].
  exact (format_datetime_ignores_Z sample_jst_noon _ _ E D T).
Defined.

